(** * The Linkwarden API client of ai-slackbot

    A shallow embedding of [src/graphs/linkwarden_api.py] and
    [src/graphs/linkwarden_exceptions.py]: the constructor of
    [LinkwardenClient], its request routine [_request] and the public
    operations built on it, over a small model of the parts of the
    [requests] library the client calls. *)

From Stdlib Require Import ZArith String Ascii List Bool Lia DecimalString.
From Stdlib Require Strings.Byte.
From Stdlib Require Import DecimalPos DecimalZ.
Import ListNotations.

#[local] Set Warnings "-register-all".

Local Open Scope string_scope.
Local Open Scope Z_scope.

(** ** Python strings *)

Module PyStr.

(** [s.startswith((p1, p2, ...))]: some member of the tuple is a prefix. *)
Definition startswith (prefixes : list string) (s : string) : bool :=
  existsb (fun p => String.prefix p s) prefixes.

(** [s.endswith(suffix)]. *)
Fixpoint endswith (suffix s : string) : bool :=
  if String.eqb s suffix then true
  else match s with
       | EmptyString => false
       | String _ rest => endswith suffix rest
       end.

(** The slice [s[:-1]]: everything but the last character. *)
Fixpoint drop_last (s : string) : string :=
  match s with
  | EmptyString => EmptyString
  | String c rest =>
      match rest with
      | EmptyString => EmptyString
      | String _ _ => String c (drop_last rest)
      end
  end.

(** [str(n)] for a Python [int]. *)
Definition str_of_int (n : Z) : string :=
  NilZero.string_of_int (Z.to_int n).

(** [not s] for a Python [str]: true on the empty string only. *)
Definition is_empty (s : string) : bool :=
  match s with
  | EmptyString => true
  | String _ _ => false
  end.

(** Lower-casing of the ASCII letters, as [str.lower] on header names. *)
Definition lower_ascii (c : ascii) : ascii :=
  let n := nat_of_ascii c in
  if (Nat.leb 65 n && Nat.leb n 90)%bool then ascii_of_nat (n + 32) else c.

Fixpoint lower (s : string) : string :=
  match s with
  | EmptyString => EmptyString
  | String c rest => String (lower_ascii c) (lower rest)
  end.

End PyStr.

(** ** JSON values, as [json.loads] builds them *)

Inductive json : Type :=
| JNull
| JBool (b : bool)
| JInt (n : Z)
| JStr (s : string)
| JList (items : list json)
| JDict (members : list (string * json)).

(** [d.get(key)] on a decoded object; [None] on anything that is not a dict
    and on a missing key.  The decoder keeps the last of duplicate keys, so
    the members of a decoded dict are distinct. *)
Fixpoint assoc_get {A : Type} (key : string) (members : list (string * A))
  : option A :=
  match members with
  | [] => None
  | (k, v) :: rest => if String.eqb k key then Some v else assoc_get key rest
  end.

Definition dict_get (key : string) (j : json) : option json :=
  match j with
  | JDict members => assoc_get key members
  | _ => None
  end.

(** What a client method hands back: a decoded JSON value, or the raw
    [bytes] of the body. *)
Inductive PyValue : Type :=
| PJson (data : json)
| PBytes (raw : list Byte.byte).

(** ** Exception classes *)

Inductive ExcClass : Type :=
| Exception
| ValueError
| AttributeError
| OSError
| RequestException
| HTTPError
| ConnectionError
| Timeout
| ConnectTimeout
| ReadTimeout
| TooManyRedirects
| InvalidURL
| InvalidJSONError
| JSONDecodeError
| LinkwardenAPIError
| LinkwardenAuthError
| LinkwardenNotFoundError
| LinkwardenServerError.

Scheme Equality for ExcClass.

(** The direct base classes: the four [Linkwarden*] rows are
    [linkwarden_exceptions.py], the others are [requests.exceptions] and the
    builtins. *)
Definition bases (c : ExcClass) : list ExcClass :=
  match c with
  | Exception => []
  | ValueError | AttributeError | OSError => [Exception]
  | RequestException => [OSError]
  | HTTPError | ConnectionError | Timeout | TooManyRedirects
  | InvalidJSONError => [RequestException]
  | ConnectTimeout => [ConnectionError; Timeout]
  | ReadTimeout => [Timeout]
  | InvalidURL => [RequestException; ValueError]
  | JSONDecodeError => [InvalidJSONError; ValueError]
  | LinkwardenAPIError => [Exception]
  | LinkwardenAuthError | LinkwardenNotFoundError
  | LinkwardenServerError => [LinkwardenAPIError]
  end.

Fixpoint issubclass_upto (depth : nat) (c d : ExcClass) : bool :=
  ExcClass_beq c d ||
  match depth with
  | O => false
  | S depth' => existsb (fun b => issubclass_upto depth' b d) (bases c)
  end.

(** No chain of [bases] is longer than four. *)
Definition issubclass : ExcClass -> ExcClass -> bool := issubclass_upto 4.

(** ** The [requests] objects the client touches *)

Record Response : Type := mkResponse {
  status_code : Z;
  reason : string;
  url : string;
  content : list Byte.byte;
  text : string
}.

(** An exception object: its class, [str(e)], the [response] attribute
    ([requests] sets it on an [HTTPError]) and [__cause__]. *)
Inductive PyExc : Type :=
| mkExc (cls : ExcClass) (msg : string) (resp : option Response)
        (cause : option PyExc).

Definition exc_class (e : PyExc) : ExcClass :=
  match e with mkExc cls _ _ _ => cls end.
Definition exc_str (e : PyExc) : string :=
  match e with mkExc _ msg _ _ => msg end.
Definition exc_response (e : PyExc) : option Response :=
  match e with mkExc _ _ resp _ => resp end.
Definition exc_cause (e : PyExc) : option PyExc :=
  match e with mkExc _ _ _ cause => cause end.

Definition isinstance (e : PyExc) (c : ExcClass) : bool :=
  issubclass (exc_class e) c.

(** [raise C(msg)] and [raise C(msg) from e]. *)
Definition new_exc (c : ExcClass) (msg : string) : PyExc :=
  mkExc c msg None None.
Definition new_exc_from (c : ExcClass) (msg : string) (e : PyExc) : PyExc :=
  mkExc c msg None (Some e).

(** [Response.raise_for_status]: an [HTTPError] carrying the response for a
    status in [400, 600), nothing otherwise. *)
Definition http_error_for (r : Response) : option PyExc :=
  if (400 <=? status_code r) && (status_code r <? 500) then
    Some (mkExc HTTPError
            (PyStr.str_of_int (status_code r) ++ " Client Error: " ++
             reason r ++ " for url: " ++ url r)
            (Some r) None)
  else if (500 <=? status_code r) && (status_code r <? 600) then
    Some (mkExc HTTPError
            (PyStr.str_of_int (status_code r) ++ " Server Error: " ++
             reason r ++ " for url: " ++ url r)
            (Some r) None)
  else None.

(** [Response.ok]: true when [raise_for_status] would not raise. *)
Definition ok (r : Response) : bool :=
  match http_error_for r with
  | Some _ => false
  | None => true
  end.

(** The keyword arguments the operations pass on: [json=] and [params=]. *)
Record Kwargs : Type := mkKwargs {
  kw_json : option json;
  kw_params : option (list (string * string))
}.

Definition no_kwargs : Kwargs := mkKwargs None None.

(** One invocation of [Session.request]. *)
Record HttpCall : Type := mkCall {
  call_method : string;
  call_url : string;
  call_headers : list (string * string);
  call_kwargs : Kwargs
}.

(** What the network does with a call: a response comes back, or
    [Session.request] raises. *)
Inductive Outcome : Type :=
| Responded (r : Response)
| Failed (e : PyExc).

(** [session.headers] is a case-insensitive dict; [update] sets the entries
    in order, a key that is already there keeps its place. *)
Fixpoint header_set (key value : string) (headers : list (string * string))
  : list (string * string) :=
  match headers with
  | [] => [(key, value)]
  | (k, v) :: rest =>
      if String.eqb (PyStr.lower k) (PyStr.lower key) then (key, value) :: rest
      else (k, v) :: header_set key value rest
  end.

Definition headers_update (headers updates : list (string * string))
  : list (string * string) :=
  fold_left (fun h kv => header_set (fst kv) (snd kv) h) updates headers.

Record Session : Type := mkSession {
  headers : list (string * string)
}.

(** ** Computations: a log of the calls sent, and Python exceptions *)

Inductive Result (A : Type) : Type :=
| Return (a : A)
| Raise (e : PyExc).

Arguments Return {A} a.
Arguments Raise {A} e.

(** The state is the list of calls issued so far, oldest first. *)
Definition M (A : Type) : Type := list HttpCall -> Result A * list HttpCall.

Definition ret {A : Type} (a : A) : M A := fun log => (Return a, log).

Definition raise {A : Type} (e : PyExc) : M A := fun log => (Raise e, log).

Definition bind {A B : Type} (c : M A) (k : A -> M B) : M B :=
  fun log =>
    match c log with
    | (Return a, log') => k a log'
    | (Raise e, log') => (Raise e, log')
    end.

Declare Scope py_scope.
Delimit Scope py_scope with py.
Notation "x <- c ;; k" := (bind c (fun x => k))
  (at level 100, c at next level, right associativity) : py_scope.
Notation "c ;;; k" := (bind c (fun _ => k))
  (at level 100, right associativity) : py_scope.

(** The first [except C as e:] clause with [isinstance(e, C)]. *)
Fixpoint find_handler {A : Type} (e : PyExc)
  (clauses : list (ExcClass * (PyExc -> M A))) : option (PyExc -> M A) :=
  match clauses with
  | [] => None
  | (c, h) :: rest => if isinstance e c then Some h else find_handler e rest
  end.

(** [try: body except C1 as e: h1 except C2 as e: h2 ...]; an exception a
    handler raises is not offered to the clauses of the same statement. *)
Definition try_except {A : Type} (body : M A)
  (clauses : list (ExcClass * (PyExc -> M A))) : M A :=
  fun log =>
    match body log with
    | (Return a, log') => (Return a, log')
    | (Raise e, log') =>
        match find_handler e clauses with
        | Some h => h e log'
        | None => (Raise e, log')
        end
    end.

(** ** A reference JSON codec

    [Response.json] and the serialisation of [json=] belong to the standard
    library.  The client is verified against an arbitrary decoder; this
    module is a decoder and an encoder for a fragment of JSON (integers for
    numbers, the two-character escapes in strings), used to run the client
    on concrete bodies. *)

Module MiniJson.

Definition dquote : ascii := ascii_of_nat 34.
Definition backslash : ascii := ascii_of_nat 92.

Definition is_ws (c : ascii) : bool :=
  let n := nat_of_ascii c in
  (Nat.eqb n 32 || Nat.eqb n 9 || Nat.eqb n 10 || Nat.eqb n 13)%bool.

Fixpoint skip_ws (s : list ascii) : list ascii :=
  match s with
  | [] => []
  | c :: rest => if is_ws c then skip_ws rest else s
  end.

(** The character an escape letter stands for. *)
Definition unescape (c : ascii) : option ascii :=
  if Ascii.eqb c dquote then Some dquote
  else if Ascii.eqb c backslash then Some backslash
  else if Ascii.eqb c "/" then Some "/"%char
  else if Ascii.eqb c "n" then Some (ascii_of_nat 10)
  else if Ascii.eqb c "r" then Some (ascii_of_nat 13)
  else if Ascii.eqb c "t" then Some (ascii_of_nat 9)
  else if Ascii.eqb c "b" then Some (ascii_of_nat 8)
  else if Ascii.eqb c "f" then Some (ascii_of_nat 12)
  else None.

(** The rest of a string literal, after its opening quote. *)
Fixpoint scan_string (s : list ascii) : option (string * list ascii) :=
  match s with
  | [] => None
  | c :: rest =>
      if Ascii.eqb c dquote then Some (EmptyString, rest)
      else if Ascii.eqb c backslash then
        match rest with
        | [] => None
        | e :: rest' =>
            match unescape e, scan_string rest' with
            | Some u, Some (str, r) => Some (String u str, r)
            | _, _ => None
            end
        end
      else if Nat.ltb (nat_of_ascii c) 32 then None
      else match scan_string rest with
           | Some (str, r) => Some (String c str, r)
           | None => None
           end
  end.

Definition digit_of (c : ascii) : option Z :=
  let n := nat_of_ascii c in
  if (Nat.leb 48 n && Nat.leb n 57)%bool then Some (Z.of_nat (n - 48))
  else None.

Fixpoint scan_digits (acc : Z) (s : list ascii) : Z * list ascii :=
  match s with
  | [] => (acc, [])
  | c :: rest =>
      match digit_of c with
      | Some d => scan_digits (10 * acc + d) rest
      | None => (acc, s)
      end
  end.

(** Digits without a sign; a leading zero stands alone. *)
Definition scan_nat (s : list ascii) : option (Z * list ascii) :=
  match s with
  | [] => None
  | c :: rest =>
      match digit_of c with
      | Some 0 => Some (0, rest)
      | Some d => Some (scan_digits d rest)
      | None => None
      end
  end.

(** An integer; a fraction or an exponent is outside the fragment. *)
Definition scan_int (s : list ascii) : option (Z * list ascii) :=
  let signed :=
    match s with
    | c :: rest =>
        if Ascii.eqb c "-" then
          match scan_nat rest with
          | Some (n, r) => Some (- n, r)
          | None => None
          end
        else scan_nat s
    | [] => None
    end in
  match signed with
  | Some (n, c :: r) =>
      if (Ascii.eqb c "." || Ascii.eqb c "e" || Ascii.eqb c "E")%bool then None
      else Some (n, c :: r)
  | other => other
  end.

Fixpoint strip_prefix (lit s : list ascii) : option (list ascii) :=
  match lit, s with
  | [], _ => Some s
  | a :: lit', b :: s' => if Ascii.eqb a b then strip_prefix lit' s' else None
  | _ :: _, [] => None
  end.

Definition keyword (lit : string) (v : json) (s : list ascii)
  : option (json * list ascii) :=
  match strip_prefix (list_ascii_of_string lit) s with
  | Some r => Some (v, r)
  | None => None
  end.

(** A dict assignment [d[key] = v]: a key that is there keeps its place. *)
Fixpoint dict_set (key : string) (v : json) (members : list (string * json))
  : list (string * json) :=
  match members with
  | [] => [(key, v)]
  | (k, w) :: rest =>
      if String.eqb k key then (k, v) :: rest
      else (k, w) :: dict_set key v rest
  end.

Definition dict_of_pairs (pairs : list (string * json))
  : list (string * json) :=
  fold_left (fun d kv => dict_set (fst kv) (snd kv) d) pairs [].

Fixpoint parse_value (fuel : nat) (s : list ascii)
  : option (json * list ascii) :=
  match fuel with
  | O => None
  | S fuel' =>
      match skip_ws s with
      | [] => None
      | c :: rest =>
          if Ascii.eqb c dquote then
            match scan_string rest with
            | Some (str, r) => Some (JStr str, r)
            | None => None
            end
          else if Ascii.eqb c "[" then
            match strip_prefix ["]"%char] (skip_ws rest) with
            | Some r => Some (JList [], r)
            | None =>
                match parse_items fuel' rest with
                | Some (items, r) => Some (JList items, r)
                | None => None
                end
            end
          else if Ascii.eqb c "{" then
            match strip_prefix ["}"%char] (skip_ws rest) with
            | Some r => Some (JDict [], r)
            | None =>
                match parse_members fuel' rest with
                | Some (pairs, r) => Some (JDict (dict_of_pairs pairs), r)
                | None => None
                end
            end
          else if Ascii.eqb c "n" then keyword "null" JNull (c :: rest)
          else if Ascii.eqb c "t" then keyword "true" (JBool true) (c :: rest)
          else if Ascii.eqb c "f" then keyword "false" (JBool false) (c :: rest)
          else match scan_int (c :: rest) with
               | Some (n, r) => Some (JInt n, r)
               | None => None
               end
      end
  end

with parse_items (fuel : nat) (s : list ascii)
  : option (list json * list ascii) :=
  match fuel with
  | O => None
  | S fuel' =>
      match parse_value fuel' s with
      | None => None
      | Some (v, r) =>
          match skip_ws r with
          | c :: r' =>
              if Ascii.eqb c "]" then Some ([v], r')
              else if Ascii.eqb c "," then
                match parse_items fuel' r' with
                | Some (vs, r'') => Some (v :: vs, r'')
                | None => None
                end
              else None
          | [] => None
          end
      end
  end

with parse_members (fuel : nat) (s : list ascii)
  : option (list (string * json) * list ascii) :=
  match fuel with
  | O => None
  | S fuel' =>
      match skip_ws s with
      | q :: s1 =>
          if Ascii.eqb q dquote then
            match scan_string s1 with
            | None => None
            | Some (key, s2) =>
                match strip_prefix [":"%char] (skip_ws s2) with
                | None => None
                | Some s3 =>
                    match parse_value fuel' s3 with
                    | None => None
                    | Some (v, r) =>
                        match skip_ws r with
                        | c :: r' =>
                            if Ascii.eqb c "}" then Some ([(key, v)], r')
                            else if Ascii.eqb c "," then
                              match parse_members fuel' r' with
                              | Some (kvs, r'') => Some ((key, v) :: kvs, r'')
                              | None => None
                              end
                            else None
                        | [] => None
                        end
                    end
                end
            end
          else None
      | [] => None
      end
  end.

(** [json.loads]: one value, then nothing but white space. *)
Definition loads (s : string) : option json :=
  let chars := list_ascii_of_string s in
  match parse_value (2 * List.length chars + 2) chars with
  | Some (v, r) =>
      match skip_ws r with
      | [] => Some v
      | _ :: _ => None
      end
  | None => None
  end.

(** The letter that escapes a character inside a string literal, if any. *)
Definition escape_letter (c : ascii) : option ascii :=
  if (Ascii.eqb c dquote || Ascii.eqb c backslash)%bool then Some c
  else if Ascii.eqb c (ascii_of_nat 10) then Some "n"%char
  else if Ascii.eqb c (ascii_of_nat 13) then Some "r"%char
  else if Ascii.eqb c (ascii_of_nat 9) then Some "t"%char
  else None.

Fixpoint escape (s : string) : string :=
  match s with
  | EmptyString => EmptyString
  | String c rest =>
      match escape_letter c with
      | Some letter => String backslash (String letter (escape rest))
      | None => String c (escape rest)
      end
  end.

Definition quoted (s : string) : string :=
  String dquote (escape s ++ String dquote EmptyString).

(** [", ".join(parts)]. *)
Fixpoint join (parts : list string) : string :=
  match parts with
  | [] => EmptyString
  | [p] => p
  | p :: rest => p ++ ", " ++ join rest
  end.

(** [json.dumps] with its default separators. *)
Fixpoint dumps (j : json) : string :=
  match j with
  | JNull => "null"
  | JBool true => "true"
  | JBool false => "false"
  | JInt n => PyStr.str_of_int n
  | JStr s => quoted s
  | JList items => "[" ++ join (map dumps items) ++ "]"
  | JDict members =>
      "{" ++ join (map (fun kv => quoted (fst kv) ++ ": " ++ dumps (snd kv))
                       members) ++ "}"
  end.

(** The body bytes of an ASCII text. *)
Definition encode (s : string) : list Byte.byte :=
  map byte_of_ascii (list_ascii_of_string s).

End MiniJson.

(** ** [LinkwardenClient] *)

Record LinkwardenClient : Type := mkClient {
  base_url : string;
  session : Session
}.

(** The public operations, with their arguments. *)
Inductive Operation : Type :=
| GetCollections
| CreateCollection (payload : json)
| GetCollectionById (collection_id : Z)
| UpdateCollection (collection_id : Z) (payload : json)
| GetLinks
| CreateLink (payload : json)
| GetLinkById (link_id : Z)
| UpdateLink (link_id : Z) (payload : json)
| GetTags
| CreateTag (payload : json)
| GetCurrentUser
| SearchQuery (query : string).

(** ** Further parts of the repository *)

(** [session.headers[key]] on the case-insensitive dict: the entry whose key
    equals [key] up to the case of letters, [None] where Python raises
    [KeyError]. *)
Fixpoint header_get (key : string) (headers : list (string * string))
  : option string :=
  match headers with
  | [] => None
  | (k, v) :: rest =>
      if String.eqb (PyStr.lower k) (PyStr.lower key) then Some v
      else header_get key rest
  end.


(** The name of the method behind an operation. *)
Definition op_name (op : Operation) : string :=
  match op with
  | GetCollections => "get_collections"
  | CreateCollection _ => "create_collection"
  | GetCollectionById _ => "get_collection_by_id"
  | UpdateCollection _ _ => "update_collection"
  | GetLinks => "get_links"
  | CreateLink _ => "create_link"
  | GetLinkById _ => "get_link_by_id"
  | UpdateLink _ _ => "update_link"
  | GetTags => "get_tags"
  | CreateTag _ => "create_tag"
  | GetCurrentUser => "get_current_user"
  | SearchQuery _ => "search_query"
  end.

(** The payload argument of an operation, if it has one. *)
Definition payload_of (op : Operation) : option json :=
  match op with
  | CreateCollection payload | UpdateCollection _ payload
  | CreateLink payload | UpdateLink _ payload
  | CreateTag payload => Some payload
  | _ => None
  end.

(** *** [linkwarden_types.py]: the two enumerations *)

Module ArchiveFormat.

Inductive t : Type := PNG | JPEG | PDF | READABILITY_JSON | MONOLITH_HTML.

(** The members, in definition order. *)
Definition members : list t := [PNG; JPEG; PDF; READABILITY_JSON; MONOLITH_HTML].

Definition value (f : t) : Z :=
  match f with
  | PNG => 0
  | JPEG => 1
  | PDF => 2
  | READABILITY_JSON => 3
  | MONOLITH_HTML => 4
  end.

Definition name (f : t) : string :=
  match f with
  | PNG => "PNG"
  | JPEG => "JPEG"
  | PDF => "PDF"
  | READABILITY_JSON => "READABILITY_JSON"
  | MONOLITH_HTML => "MONOLITH_HTML"
  end.

(** [ArchiveFormat(v)]: the member with that value, [None] where the call
    raises [ValueError]. *)
Definition of_value (v : Z) : option t :=
  find (fun m => value m =? v) members.

End ArchiveFormat.

Module ArchiveUploadFormat.

Inductive t : Type := PNG | JPEG | PDF.

Definition members : list t := [PNG; JPEG; PDF].

Definition value (f : t) : Z :=
  match f with
  | PNG => 0
  | JPEG => 1
  | PDF => 2
  end.

Definition name (f : t) : string :=
  match f with
  | PNG => "PNG"
  | JPEG => "JPEG"
  | PDF => "PDF"
  end.

(** [ArchiveUploadFormat(v)]. *)
Definition of_value (v : Z) : option t :=
  find (fun m => value m =? v) members.

End ArchiveUploadFormat.

(** *** [agent.py]: the tools taken from the client *)

(** [unpack_tool(client)].  [attrs] lists, in the order of [dir(client)],
    each attribute name with [callable(getattr(client, name))]; a method is
    stood for by its name. *)
Definition unpack_tool (attrs : list (string * bool)) : list string :=
  fold_left
    (fun tools attr =>
       let method_name := fst attr in
       if snd attr && negb (String.prefix "__" method_name) then
         if String.eqb method_name "_request" then tools
         else (tools ++ [method_name])%list
       else tools)
    attrs [].

(** What [dir] finds on a [LinkwardenClient] beside the names that start
    with two underscores: the attributes [__init__] sets and the methods of
    the class, in the sorted order of [dir]. *)
Definition client_attrs : list (string * bool) :=
  [("_request", true); ("base_url", false);
   ("create_collection", true); ("create_link", true); ("create_tag", true);
   ("get_collection_by_id", true); ("get_collections", true);
   ("get_current_user", true); ("get_link_by_id", true); ("get_links", true);
   ("get_tags", true); ("search_query", true); ("session", false);
   ("update_collection", true); ("update_link", true)].

(** The names of [attrs] that do not start with two underscores. *)
Definition without_dunders (attrs : list (string * bool))
  : list (string * bool) :=
  filter (fun attr => negb (String.prefix "__" (fst attr))) attrs.

(** The attributes [unpack_tool] keeps. *)
Definition is_tool (attr : string * bool) : bool :=
  snd attr && negb (String.prefix "__" (fst attr))
  && negb (String.eqb (fst attr) "_request").


(** A failure of [Session.request] itself (connection refused, DNS, TLS,
    timeout, ...): a [RequestException] other than [HTTPError], which only
    [raise_for_status] raises. *)
Definition transport_failure (e : PyExc) : bool :=
  isinstance e RequestException && negb (isinstance e HTTPError).

(** ** Concrete servers and bodies *)

Module Scenario.

Definition default_headers : list (string * string) :=
  [("User-Agent", "python-requests"); ("Accept-Encoding", "gzip, deflate");
   ("Accept", "*/*"); ("Connection", "keep-alive")].

(** The client [LinkwardenClient("https://links.example.org/", "s3cr3t")]. *)
Definition client : LinkwardenClient :=
  mkClient "https://links.example.org"
    (mkSession
       [("User-Agent", "python-requests"); ("Accept-Encoding", "gzip, deflate");
        ("Accept", "application/json"); ("Connection", "keep-alive");
        ("Authorization", "Bearer s3cr3t");
        ("Content-type", "application/json")]).

(** [Response.json()] through the reference decoder. *)
Definition decode (r : Response) : option json := MiniJson.loads (text r).

(** A server that answers every call with one status and one body. *)
Definition answers (status : Z) (why body : string)
  : list HttpCall -> HttpCall -> Outcome :=
  fun _ call =>
    Responded (mkResponse status why (call_url call) (MiniJson.encode body)
                 body).

(** A network on which every connection is refused. *)
Definition refused : PyExc :=
  mkExc ConnectionError "Connection refused" None None.

Definition unreachable : list HttpCall -> HttpCall -> Outcome :=
  fun _ _ => Failed refused.

Definition reading_list : json :=
  JDict [("id", JInt 1); ("name", JStr "Reading List");
         ("description", JNull); ("isPublic", JBool false);
         ("ownerId", JInt 7)].

(** The body [{"response": {"id": 1, "name": "Reading List", ...}}]. *)
Definition wrapped_reading_list : json :=
  JDict [("response", reading_list)].

Definition create_payload : json := JDict [("name", JStr "Reading List")].

Definition not_json : string := "<html>gateway says no</html>".

End Scenario.

Section Client.

Set Default Proof Using "Type".

(** The headers a fresh [requests.Session()] starts with. *)
Variable default_headers : list (string * string).

(** The network: what [Session.request] meets for a call, given the calls
    sent before it. *)
Variable send : list HttpCall -> HttpCall -> Outcome.

(** [Response.json()]: the decoded body, [None] where it raises
    [requests.exceptions.JSONDecodeError]. *)
Variable response_json : Response -> option json.

Definition invalid_base_url : PyExc :=
  new_exc ValueError
    "A valid base_url (starting with http:// or https://) is required.".

Definition __init__ (base_url api_token : string) : M LinkwardenClient :=
  if PyStr.is_empty base_url
     || negb (PyStr.startswith ["http://"; "https://"] base_url)
  then raise invalid_base_url
  else
    let base_url :=
      if PyStr.endswith "/" base_url then PyStr.drop_last base_url
      else base_url in
    let session := mkSession default_headers in
    let session :=
      mkSession (headers_update (headers session)
                   [("Authorization", "Bearer " ++ api_token);
                    ("Accept", "application/json");
                    ("Content-type", "application/json")]) in
    ret (mkClient base_url session).

(** [self.session.request(method, url, headers=headers, **kwargs)]: the one
    place where a call goes out. *)
Definition session_request (s : Session) (method url : string)
  (hdrs : list (string * string)) (kwargs : Kwargs) : M Response :=
  fun log =>
    let call := mkCall method url hdrs kwargs in
    match send log call with
    | Responded r => (Return r, (log ++ [call])%list)
    | Failed e => (Raise e, (log ++ [call])%list)
    end.

Definition raise_for_status (response : Response) : M unit :=
  match http_error_for response with
  | Some e => raise e
  | None => ret tt
  end.

(** [response.json()]; the handler below binds no name, so the text of the
    decode error is never read. *)
Definition json_of (response : Response) : M json :=
  match response_json response with
  | Some data => ret data
  | None =>
      raise (mkExc JSONDecodeError "Expecting value" (Some response) None)
  end.

(** The [raise] of the non-ok arm of the decode handler. *)
Definition not_json_failure (response : Response) : M PyValue :=
  raise (new_exc LinkwardenAPIError
           ("Request failed with status " ++
            PyStr.str_of_int (status_code response) ++
            ", and the response body was not valid JSON: " ++
            text response)).

(** [except requests.exceptions.JSONDecodeError:] *)
Definition on_json_decode_error (non_ok_arm : Response -> M PyValue)
  (response : Response) (_ : PyExc) : M PyValue :=
  if ok response then ret (PBytes (content response))
  else non_ok_arm response.

(** [except requests.exceptions.HTTPError as e:] *)
Definition on_http_error (e : PyExc) : M PyValue :=
  match exc_response e with
  | None =>
      raise (new_exc AttributeError
               "'NoneType' object has no attribute 'status_code'")
  | Some response =>
      let status_code := status_code response in
      let error_text := text response in
      if (status_code =? 401) || (status_code =? 403) then
        raise (new_exc_from LinkwardenAuthError
                 ("Authentication error (" ++ PyStr.str_of_int status_code ++
                  "): " ++ error_text) e)
      else if status_code =? 404 then
        raise (new_exc_from LinkwardenNotFoundError
                 ("Resource not found (" ++ PyStr.str_of_int status_code ++
                  "): " ++ error_text) e)
      else if (500 <=? status_code) && (status_code <? 600) then
        raise (new_exc_from LinkwardenServerError
                 ("Server error (" ++ PyStr.str_of_int status_code ++
                  "): " ++ error_text) e)
      else
        raise (new_exc_from LinkwardenAPIError
                 ("HTTP client error (" ++ PyStr.str_of_int status_code ++
                  "): " ++ error_text) e)
  end.

(** [except requests.exceptions.RequestException as e:] *)
Definition on_request_exception (e : PyExc) : M PyValue :=
  raise (new_exc_from LinkwardenAPIError
           ("A network request failed: " ++ exc_str e) e).

(** The body of [_request], with the non-ok arm of the decode handler left
    open. *)
Definition _request_with (non_ok_arm : Response -> M PyValue)
  (self : LinkwardenClient) (method endpoint : string) (kwargs : Kwargs)
  : M PyValue :=
  let url := base_url self ++ "/" ++ endpoint in
  let headers := headers (session self) in
  try_except
    (response <- session_request (session self) method url headers kwargs ;;
     raise_for_status response ;;;
     try_except
       (data <- json_of response ;;
        ret (PJson data))
       [(JSONDecodeError, on_json_decode_error non_ok_arm response)])%py
    [(HTTPError, on_http_error);
     (RequestException, on_request_exception)].

Definition _request : LinkwardenClient -> string -> string -> Kwargs
                      -> M PyValue :=
  _request_with not_json_failure.

(** *** Collections *)

Definition get_collections (self : LinkwardenClient) : M PyValue :=
  _request self "GET" "api/v1/collections" no_kwargs.

Definition create_collection (self : LinkwardenClient) (payload : json)
  : M PyValue :=
  _request self "POST" "api/v1/collections" (mkKwargs (Some payload) None).

Definition get_collection_by_id (self : LinkwardenClient) (collection_id : Z)
  : M PyValue :=
  _request self "GET"
    ("api/v1/collections/" ++ PyStr.str_of_int collection_id) no_kwargs.

Definition update_collection (self : LinkwardenClient) (collection_id : Z)
  (payload : json) : M PyValue :=
  _request self "PUT"
    ("api/v1/collections/" ++ PyStr.str_of_int collection_id)
    (mkKwargs (Some payload) None).

(** *** Links *)

Definition get_links (self : LinkwardenClient) : M PyValue :=
  _request self "GET" "api/v1/links" no_kwargs.

Definition create_link (self : LinkwardenClient) (payload : json)
  : M PyValue :=
  _request self "POST" "api/v1/links" (mkKwargs (Some payload) None).

Definition get_link_by_id (self : LinkwardenClient) (link_id : Z)
  : M PyValue :=
  _request self "GET" ("api/v1/links/" ++ PyStr.str_of_int link_id) no_kwargs.

Definition update_link (self : LinkwardenClient) (link_id : Z)
  (payload : json) : M PyValue :=
  _request self "PUT" ("api/v1/links/" ++ PyStr.str_of_int link_id)
    (mkKwargs (Some payload) None).

(** *** Tags *)

Definition get_tags (self : LinkwardenClient) : M PyValue :=
  _request self "GET" "api/v1/tags" no_kwargs.

Definition create_tag (self : LinkwardenClient) (payload : json)
  : M PyValue :=
  _request self "POST" "api/v1/tags" (mkKwargs (Some payload) None).

(** *** Users and search *)

Definition get_current_user (self : LinkwardenClient) : M PyValue :=
  _request self "GET" "api/v1/users/me" no_kwargs.

Definition search_query (self : LinkwardenClient) (query : string)
  : M PyValue :=
  _request self "GET" "api/v1/search"
    (mkKwargs None (Some [("searchQueryString", query)])).

(** Calling a public operation by name. *)
Definition invoke (self : LinkwardenClient) (op : Operation) : M PyValue :=
  match op with
  | GetCollections => get_collections self
  | CreateCollection payload => create_collection self payload
  | GetCollectionById collection_id => get_collection_by_id self collection_id
  | UpdateCollection collection_id payload =>
      update_collection self collection_id payload
  | GetLinks => get_links self
  | CreateLink payload => create_link self payload
  | GetLinkById link_id => get_link_by_id self link_id
  | UpdateLink link_id payload => update_link self link_id payload
  | GetTags => get_tags self
  | CreateTag payload => create_tag self payload
  | GetCurrentUser => get_current_user self
  | SearchQuery query => search_query self query
  end.

(** The call [_request] sends. *)
Definition issued (self : LinkwardenClient) (method endpoint : string)
  (kwargs : Kwargs) : HttpCall :=
  mkCall method (base_url self ++ "/" ++ endpoint) (headers (session self))
    kwargs.

(** The call each public operation has [_request] send: the method, the
    endpoint and the keyword arguments of its body. *)
Definition sent_call (self : LinkwardenClient) (op : Operation) : HttpCall :=
  match op with
  | GetCollections => issued self "GET" "api/v1/collections" no_kwargs
  | CreateCollection payload =>
      issued self "POST" "api/v1/collections" (mkKwargs (Some payload) None)
  | GetCollectionById collection_id =>
      issued self "GET"
        ("api/v1/collections/" ++ PyStr.str_of_int collection_id) no_kwargs
  | UpdateCollection collection_id payload =>
      issued self "PUT"
        ("api/v1/collections/" ++ PyStr.str_of_int collection_id)
        (mkKwargs (Some payload) None)
  | GetLinks => issued self "GET" "api/v1/links" no_kwargs
  | CreateLink payload =>
      issued self "POST" "api/v1/links" (mkKwargs (Some payload) None)
  | GetLinkById link_id =>
      issued self "GET" ("api/v1/links/" ++ PyStr.str_of_int link_id)
        no_kwargs
  | UpdateLink link_id payload =>
      issued self "PUT" ("api/v1/links/" ++ PyStr.str_of_int link_id)
        (mkKwargs (Some payload) None)
  | GetTags => issued self "GET" "api/v1/tags" no_kwargs
  | CreateTag payload =>
      issued self "POST" "api/v1/tags" (mkKwargs (Some payload) None)
  | GetCurrentUser => issued self "GET" "api/v1/users/me" no_kwargs
  | SearchQuery query =>
      issued self "GET" "api/v1/search"
        (mkKwargs None (Some [("searchQueryString", query)]))
  end.

(** ** Facts about the string helpers *)

Lemma prefix_iff (p s : string) :
  String.prefix p s = true <-> exists rest, s = p ++ rest.
Proof.
  revert s. induction p as [|a p IH]; intros s.
  - split; [intros _; exists s; reflexivity | destruct s; reflexivity].
  - destruct s as [|b s]; simpl.
    + split; [discriminate | intros [rest H]; discriminate].
    + destruct (ascii_dec a b) as [->|Hab].
      * rewrite IH. split; intros [rest H]; exists rest.
        -- now rewrite H.
        -- now injection H.
      * split; [discriminate | intros [rest H]; injection H; congruence].
Qed.

Lemma startswith_schemes (s : string) :
  PyStr.startswith ["http://"; "https://"] s = true <->
  (exists rest, s = "http://" ++ rest) \/ (exists rest, s = "https://" ++ rest).
Proof.
  unfold PyStr.startswith, existsb.
  rewrite orb_false_r, orb_true_iff, !prefix_iff. reflexivity.
Qed.

Lemma endswith_cons (suffix : string) (c : ascii) (s : string) :
  PyStr.endswith suffix (String c s) =
  if String.eqb (String c s) suffix then true else PyStr.endswith suffix s.
Proof. reflexivity. Qed.

Lemma endswith_slash_iff (s : string) :
  PyStr.endswith "/" s = true <-> exists body, s = body ++ "/".
Proof.
  induction s as [|c s IH].
  - split; [discriminate | intros [[|b body] H]; discriminate].
  - rewrite endswith_cons.
    destruct (String.eqb_spec (String c s) "/") as [E|E].
    + split; [intros _; exists EmptyString; exact E | reflexivity].
    + rewrite IH. split.
      * intros [body ->]. exists (String c body). reflexivity.
      * intros [[|b body] H]; [contradiction|].
        injection H as _ ->. exists body. reflexivity.
Qed.

Lemma drop_last_slash (body : string) : PyStr.drop_last (body ++ "/") = body.
Proof.
  induction body as [|c body IH]; [reflexivity|].
  simpl. rewrite IH. destruct body; reflexivity.
Qed.

Lemma append_slash_inj (a b : string) : a ++ "/" = b ++ "/" -> a = b.
Proof.
  intros H. rewrite <- (drop_last_slash a), <- (drop_last_slash b).
  now rewrite H.
Qed.

(** ** The request routine, outcome by outcome *)

Lemma http_error_for_spec (r : Response) :
  match http_error_for r with
  | Some e =>
      400 <= status_code r < 600 /\ exc_class e = HTTPError /\
      exc_response e = Some r
  | None => status_code r < 400 \/ 600 <= status_code r
  end.
Proof.
  unfold http_error_for.
  destruct (Z.leb_spec 400 (status_code r)), (Z.ltb_spec (status_code r) 500);
    simpl; try (repeat split; (lia || reflexivity)).
  all: destruct (Z.leb_spec 500 (status_code r)),
         (Z.ltb_spec (status_code r) 600);
    simpl; try (repeat split; (lia || reflexivity)); lia.
Qed.

Lemma http_error_in_range (r : Response) :
  400 <= status_code r < 600 ->
  exists e, http_error_for r = Some e /\ exc_class e = HTTPError /\
            exc_response e = Some r.
Proof.
  intros Hs. pose proof (http_error_for_spec r) as H.
  destruct (http_error_for r) as [e|]; [|lia].
  exists e. split; [reflexivity | exact (proj2 H)].
Qed.

Lemma http_error_out_of_range (r : Response) :
  status_code r < 400 \/ 600 <= status_code r -> http_error_for r = None.
Proof.
  intros Hs. pose proof (http_error_for_spec r) as H.
  destruct (http_error_for r); [lia | reflexivity].
Qed.

Lemma ok_true_iff (r : Response) : ok r = true <-> http_error_for r = None.
Proof.
  unfold ok. destruct (http_error_for r); split; congruence.
Qed.

(** An [HTTPError] goes to the first clause of the outer [try]. *)
Lemma outer_clauses_http_error {A : Type} (e : PyExc)
  (h1 h2 : PyExc -> M A) :
  exc_class e = HTTPError ->
  find_handler e [(HTTPError, h1); (RequestException, h2)] = Some h1.
Proof.
  intros H. unfold find_handler, isinstance. rewrite H. reflexivity.
Qed.

(** A transport failure goes to the second. *)
Lemma outer_clauses_transport {A : Type} (e : PyExc)
  (h1 h2 : PyExc -> M A) :
  transport_failure e = true ->
  find_handler e [(HTTPError, h1); (RequestException, h2)] = Some h2.
Proof.
  unfold transport_failure. intros H.
  apply andb_true_iff in H as [Hreq Hhttp].
  apply negb_true_iff in Hhttp.
  unfold find_handler. now rewrite Hhttp, Hreq.
Qed.

(** None of the classes the client raises is caught by the outer [try]. *)
Lemma outer_clauses_pass {A : Type} (e : PyExc) (h1 h2 : PyExc -> M A) :
  isinstance e LinkwardenAPIError = true ->
  find_handler e [(HTTPError, h1); (RequestException, h2)] = None.
Proof.
  unfold find_handler, isinstance. destruct (exc_class e); simpl;
    intros H; (discriminate || reflexivity).
Qed.

(** What [_request] does once a response has come back. *)
Lemma _request_with_responded (non_ok_arm : Response -> M PyValue)
  (self : LinkwardenClient) (method endpoint : string) (kwargs : Kwargs)
  (log : list HttpCall) (r : Response) :
  send log (issued self method endpoint kwargs) = Responded r ->
  _request_with non_ok_arm self method endpoint kwargs log =
  match http_error_for r with
  | Some e =>
      on_http_error e (log ++ [issued self method endpoint kwargs])%list
  | None =>
      (Return match response_json r with
              | Some data => PJson data
              | None => PBytes (content r)
              end,
       (log ++ [issued self method endpoint kwargs])%list)
  end.
Proof.
  intros Hsend.
  unfold _request_with, try_except at 1, bind at 1, session_request.
  fold (issued self method endpoint kwargs). rewrite Hsend.
  unfold bind, raise_for_status.
  pose proof (http_error_for_spec r) as Hspec.
  destruct (http_error_for r) as [e|] eqn:Herr.
  - destruct Hspec as (_ & Hcls & _). unfold raise.
    now rewrite (outer_clauses_http_error e _ _ Hcls).
  - unfold ret at 1, try_except, bind, json_of.
    destruct (response_json r) as [data|]; [reflexivity|].
    unfold raise at 1. cbn [find_handler isinstance exc_class].
    change (issubclass JSONDecodeError JSONDecodeError) with true. cbv iota.
    unfold on_json_decode_error.
    rewrite (proj2 (ok_true_iff r) Herr). reflexivity.
Qed.

(** What [_request] does when [Session.request] raises. *)
Lemma _request_with_failed (non_ok_arm : Response -> M PyValue)
  (self : LinkwardenClient) (method endpoint : string) (kwargs : Kwargs)
  (log : list HttpCall) (e : PyExc) :
  send log (issued self method endpoint kwargs) = Failed e ->
  _request_with non_ok_arm self method endpoint kwargs log =
  match find_handler e [(HTTPError, on_http_error);
                        (RequestException, on_request_exception)] with
  | Some h => h e (log ++ [issued self method endpoint kwargs])%list
  | None => (Raise e, (log ++ [issued self method endpoint kwargs])%list)
  end.
Proof.
  intros Hsend.
  unfold _request_with, try_except at 1, bind at 1, session_request.
  fold (issued self method endpoint kwargs). now rewrite Hsend.
Qed.

(** Every public operation is [_request] at some method, endpoint and
    keyword arguments. *)
Lemma invoke_is_request (self : LinkwardenClient) (op : Operation) :
  exists method endpoint kwargs,
    invoke self op = _request self method endpoint kwargs.
Proof.
  destruct op; cbn [invoke]; eexists _, _, _; reflexivity.
Qed.

(** ... and the call it sends is [sent_call]. *)
Lemma invoke_sent (self : LinkwardenClient) (op : Operation) :
  exists method endpoint kwargs,
    invoke self op = _request self method endpoint kwargs /\
    sent_call self op = issued self method endpoint kwargs.
Proof.
  destruct op; cbn [invoke sent_call]; eexists _, _, _; split; reflexivity.
Qed.

(** The classes below [LinkwardenAPIError] are the four of
    [linkwarden_exceptions.py]. *)
Lemma api_error_classes (c : ExcClass) :
  issubclass c LinkwardenAPIError = true ->
  In c [LinkwardenAuthError; LinkwardenNotFoundError; LinkwardenServerError;
        LinkwardenAPIError].
Proof.
  destruct c; intros H; try discriminate H; cbn [In]; auto.
Qed.

(** A failure status makes [_request] raise one of the client's errors,
    with the [HTTPError] as its cause. *)
Lemma on_http_error_raises (e : PyExc) (r : Response) (log : list HttpCall) :
  exc_response e = Some r ->
  exists c label,
    on_http_error e log =
      (Raise (new_exc_from c
                (label ++ PyStr.str_of_int (status_code r) ++ "): " ++ text r)
                e), log) /\
    issubclass c LinkwardenAPIError = true.
Proof.
  intros Hr. unfold on_http_error. rewrite Hr.
  destruct ((status_code r =? 401) || (status_code r =? 403));
    [eexists _, _; split; reflexivity|].
  destruct (status_code r =? 404); [eexists _, _; split; reflexivity|].
  destruct ((500 <=? status_code r) && (status_code r <? 600));
    eexists _, _; split; reflexivity.
Qed.


(** ** The constructor *)

(** C6: a base URL that starts with neither [http://] nor [https://] (the
    empty string included) makes the constructor raise [ValueError], whatever
    the token, and the log of calls is left as it was: nothing was sent. *)
Theorem init_rejects_missing_scheme
  (base_url api_token : string) (log : list HttpCall) :
  ~ (exists rest, base_url = "http://" ++ rest) ->
  ~ (exists rest, base_url = "https://" ++ rest) ->
  exists x,
    __init__ base_url api_token log = (Raise x, log) /\
    exc_class x = ValueError.
Proof.
  intros Hhttp Hhttps. exists invalid_base_url. split; [|reflexivity].
  unfold __init__.
  destruct (PyStr.startswith ["http://"; "https://"] base_url) eqn:Hsw.
  - apply startswith_schemes in Hsw.
    destruct Hsw as [H|H]; [destruct (Hhttp H) | destruct (Hhttps H)].
  - now rewrite orb_true_r.
Qed.

(** C7: for a base URL with a scheme, the constructor succeeds without
    sending anything; if the URL ends with a slash the stored base URL is the
    URL without that one slash, otherwise it is the URL itself. *)
Theorem init_strips_one_trailing_slash
  (url api_token : string) (log : list HttpCall) :
  (exists rest, url = "http://" ++ rest) \/
  (exists rest, url = "https://" ++ rest) ->
  exists self,
    __init__ url api_token log = (Return self, log) /\
    (forall body, url = body ++ "/" -> base_url self = body) /\
    ((forall body, url <> body ++ "/") -> base_url self = url).
Proof.
  intros Hscheme.
  assert (Hne : PyStr.is_empty url = false)
    by (destruct Hscheme as [[rest ->]|[rest ->]]; reflexivity).
  apply startswith_schemes in Hscheme.
  unfold __init__. rewrite Hne, Hscheme. cbn [negb orb].
  eexists. split; [reflexivity|]. cbn [base_url]. split.
  - intros body ->.
    rewrite (proj2 (endswith_slash_iff (body ++ "/")))
      by (exists body; reflexivity).
    apply drop_last_slash.
  - intros Hno. destruct (PyStr.endswith "/" url) eqn:Hend; [|reflexivity].
    apply endswith_slash_iff in Hend as [body ->].
    now destruct (Hno body).
Qed.

(** ** The request routine *)

(** C1, amended: when a response comes back with a failure status that
    [raise_for_status] reports (400 to 599), [_request] raises, with the
    [HTTPError] as cause and the status code and response text in the
    message: [LinkwardenAuthError] for 401 and 403, [LinkwardenNotFoundError]
    for 404, [LinkwardenServerError] for 500 to 599, and the base
    [LinkwardenAPIError] for every other status from 400 to 499. *)
Theorem request_classifies_failure_status
  (self : LinkwardenClient) (method endpoint : string) (kwargs : Kwargs)
  (log : list HttpCall) (r : Response) :
  send log (issued self method endpoint kwargs) = Responded r ->
  400 <= status_code r < 600 ->
  exists e,
    exc_class e = HTTPError /\ exc_response e = Some r /\
    let raised (c : ExcClass) (label : string) :=
      _request self method endpoint kwargs log =
      (Raise (mkExc c
                (label ++ PyStr.str_of_int (status_code r) ++ "): " ++ text r)
                None (Some e)),
       (log ++ [issued self method endpoint kwargs])%list) in
    (status_code r = 401 \/ status_code r = 403 ->
     raised LinkwardenAuthError "Authentication error (") /\
    (status_code r = 404 ->
     raised LinkwardenNotFoundError "Resource not found (") /\
    (500 <= status_code r ->
     raised LinkwardenServerError "Server error (") /\
    (status_code r < 500 -> status_code r <> 401 -> status_code r <> 403 ->
     status_code r <> 404 ->
     raised LinkwardenAPIError "HTTP client error (").
Proof.
  intros Hsend Hrange.
  destruct (http_error_in_range r Hrange) as (e & Herr & Hcls & Hresp).
  exists e. split; [exact Hcls|]. split; [exact Hresp|].
  cbv zeta. unfold _request.
  rewrite (_request_with_responded _ _ _ _ _ _ _ Hsend), Herr.
  unfold on_http_error. rewrite Hresp. cbv zeta.
  destruct (Z.eqb_spec (status_code r) 401) as [E401|N401];
    destruct (Z.eqb_spec (status_code r) 403) as [E403|N403];
    destruct (Z.eqb_spec (status_code r) 404) as [E404|N404];
    destruct (Z.leb_spec 500 (status_code r)) as [G500|L500];
    destruct (Z.ltb_spec (status_code r) 600) as [L600|G600];
    cbn [orb andb]; try lia;
    repeat split; intros; (reflexivity || lia).
Qed.

(** C3, amended: for a response with a status from 400 to 599 whose body is
    not valid JSON, [_request] raises the error its status selects, an
    instance of [LinkwardenAPIError] and never the decode error; it is the
    base [LinkwardenAPIError] itself when the status is below 500 and is not
    401, 403 or 404. *)
Theorem failure_status_with_non_json_body
  (self : LinkwardenClient) (method endpoint : string) (kwargs : Kwargs)
  (log : list HttpCall) (r : Response) :
  send log (issued self method endpoint kwargs) = Responded r ->
  400 <= status_code r < 600 ->
  response_json r = None ->
  exists x,
    _request self method endpoint kwargs log =
      (Raise x, (log ++ [issued self method endpoint kwargs])%list) /\
    isinstance x LinkwardenAPIError = true /\
    isinstance x JSONDecodeError = false /\
    (status_code r < 500 -> status_code r <> 401 -> status_code r <> 403 ->
     status_code r <> 404 ->
     exc_class x = LinkwardenAPIError /\
     exc_str x = "HTTP client error (" ++ PyStr.str_of_int (status_code r) ++
                 "): " ++ text r).
Proof.
  intros Hsend Hrange _.
  destruct (http_error_in_range r Hrange) as (e & Herr & Hcls & Hresp).
  unfold _request.
  rewrite (_request_with_responded _ _ _ _ _ _ _ Hsend), Herr.
  unfold on_http_error. rewrite Hresp. cbv zeta.
  destruct (Z.eqb_spec (status_code r) 401) as [E401|N401];
    destruct (Z.eqb_spec (status_code r) 403) as [E403|N403];
    destruct (Z.eqb_spec (status_code r) 404) as [E404|N404];
    destruct (Z.leb_spec 500 (status_code r)) as [G500|L500];
    destruct (Z.ltb_spec (status_code r) 600) as [L600|G600];
    cbn [orb andb]; try lia;
    (eexists; split; [reflexivity|]);
    repeat split; intros; (reflexivity || lia).
Qed.

(** C4: for a response with a 2xx status whose body decodes as JSON,
    [_request] returns the decoded value as it is, after one call. *)
Theorem success_json_is_returned
  (self : LinkwardenClient) (method endpoint : string) (kwargs : Kwargs)
  (log : list HttpCall) (r : Response) (data : json) :
  send log (issued self method endpoint kwargs) = Responded r ->
  200 <= status_code r < 300 ->
  response_json r = Some data ->
  _request self method endpoint kwargs log =
  (Return (PJson data), (log ++ [issued self method endpoint kwargs])%list).
Proof.
  intros Hsend Hrange Hjson. unfold _request.
  rewrite (_request_with_responded _ _ _ _ _ _ _ Hsend).
  rewrite http_error_out_of_range by lia. now rewrite Hjson.
Qed.

(** C5: for a response with a 2xx status whose body does not decode as
    JSON, [_request] returns the raw bytes of the body and raises nothing. *)
Theorem success_non_json_returns_content
  (self : LinkwardenClient) (method endpoint : string) (kwargs : Kwargs)
  (log : list HttpCall) (r : Response) :
  send log (issued self method endpoint kwargs) = Responded r ->
  200 <= status_code r < 300 ->
  response_json r = None ->
  _request self method endpoint kwargs log =
  (Return (PBytes (content r)),
   (log ++ [issued self method endpoint kwargs])%list).
Proof.
  intros Hsend Hrange Hjson. unfold _request.
  rewrite (_request_with_responded _ _ _ _ _ _ _ Hsend).
  rewrite http_error_out_of_range by lia. now rewrite Hjson.
Qed.


(** C8: when the call a public operation sends fails at the transport level
    ([Session.request] raises and no response comes back), the operation
    raises the base [LinkwardenAPIError], whose message carries the text of
    the transport exception and whose cause is that exception; the log grows
    by exactly that one call, so nothing is sent again.  This holds for each
    of the twelve operations, whatever the network does with other calls. *)
Theorem transport_failure_is_wrapped
  (self : LinkwardenClient) (op : Operation) (log : list HttpCall)
  (e : PyExc) :
  send log (sent_call self op) = Failed e ->
  transport_failure e = true ->
  invoke self op log =
  (Raise (mkExc LinkwardenAPIError
            ("A network request failed: " ++ exc_str e) None (Some e)),
   (log ++ [sent_call self op])%list).
Proof.
  intros Hfail Htransport.
  destruct (invoke_sent self op) as (method & endpoint & kwargs & -> & Hsent).
  rewrite Hsent in *. unfold _request.
  rewrite (_request_with_failed _ _ _ _ _ _ _ Hfail).
  now rewrite (outer_clauses_transport e _ _ Htransport).
Qed.

(** C9, amended: the non-ok arm of the JSON-decode handler is dead code.
    Whatever is put in that arm, [_request] behaves the same; and a response
    that gets past [raise_for_status] has [ok] true, its status lying
    outside 400 to 599 (below 400, or 600 and above). *)
Theorem non_ok_arm_is_dead :
  (forall (arm : Response -> M PyValue) (self : LinkwardenClient)
          (method endpoint : string) (kwargs : Kwargs) (log : list HttpCall),
      _request_with arm self method endpoint kwargs log =
      _request self method endpoint kwargs log) /\
  (forall (r : Response) (log : list HttpCall),
      raise_for_status r log = (Return tt, log) ->
      ok r = true /\ (status_code r < 400 \/ 600 <= status_code r)).
Proof.
  split.
  - intros arm self method endpoint kwargs log. unfold _request.
    destruct (send log (issued self method endpoint kwargs)) as [r|e] eqn:Hsend.
    + now rewrite !(_request_with_responded _ _ _ _ _ _ _ Hsend).
    + now rewrite !(_request_with_failed _ _ _ _ _ _ _ Hsend).
  - intros r log Hpass. unfold raise_for_status in Hpass.
    pose proof (http_error_for_spec r) as Hspec.
    destruct (http_error_for r) as [e|] eqn:Herr; [discriminate|].
    split; [now apply ok_true_iff | exact Hspec].
Qed.

(** C10: every failing request ends in an error of the one hierarchy.  When
    the call a public operation sends comes back with a failure status (400
    to 599) or fails at the transport level, the operation raises; the
    error is of one of the four classes [LinkwardenAuthError],
    [LinkwardenNotFoundError], [LinkwardenServerError] and
    [LinkwardenAPIError], hence an instance of [LinkwardenAPIError], and an
    [except LinkwardenAPIError] clause around the call handles it.  What the
    constructor raises is not such an instance. *)
Theorem raised_errors_are_api_errors
  (self : LinkwardenClient) (op : Operation) (log : list HttpCall) :
  (exists r, send log (sent_call self op) = Responded r /\
             400 <= status_code r < 600) \/
  (exists e, send log (sent_call self op) = Failed e /\
             transport_failure e = true) ->
  (exists x,
      invoke self op log = (Raise x, (log ++ [sent_call self op])%list) /\
      In (exc_class x)
        [LinkwardenAuthError; LinkwardenNotFoundError; LinkwardenServerError;
         LinkwardenAPIError] /\
      isinstance x LinkwardenAPIError = true /\
      forall h : PyExc -> M PyValue,
        try_except (invoke self op) [(LinkwardenAPIError, h)] log =
        h x (log ++ [sent_call self op])%list) /\
  (forall (url api_token : string) (l l' : list HttpCall) (v : PyExc),
      __init__ url api_token l = (Raise v, l') ->
      isinstance v LinkwardenAPIError = false).
Proof.
  intros Hfails. split.
  - assert (Hraise : exists x,
              invoke self op log =
                (Raise x, (log ++ [sent_call self op])%list) /\
              issubclass (exc_class x) LinkwardenAPIError = true).
    { destruct (invoke_sent self op)
        as (method & endpoint & kwargs & -> & Hsent).
      rewrite Hsent in *. unfold _request.
      destruct Hfails as [(r & Hsend & Hrange)|(e & Hsend & Htransport)].
      - rewrite (_request_with_responded _ _ _ _ _ _ _ Hsend).
        destruct (http_error_in_range r Hrange) as (e & -> & _ & Hresp).
        destruct (on_http_error_raises e r
                    (log ++ [issued self method endpoint kwargs])%list Hresp)
          as (c & label & -> & Hsub).
        eexists. split; [reflexivity | exact Hsub].
      - rewrite (_request_with_failed _ _ _ _ _ _ _ Hsend).
        rewrite (outer_clauses_transport e _ _ Htransport).
        eexists. split; reflexivity. }
    destruct Hraise as (x & Hrun & Hsub). exists x.
    split; [exact Hrun|]. split; [now apply api_error_classes|].
    split; [exact Hsub|].
    intros h. unfold try_except. rewrite Hrun. unfold find_handler, isinstance.
    now rewrite Hsub.
  - intros url api_token l l' v. unfold __init__.
    destruct (_ || _); [|discriminate].
    unfold raise. intros Hv. injection Hv as <- _. reflexivity.
Qed.

(** ** The session headers *)

Lemma header_get_set_same (key key' value : string)
  (hs : list (string * string)) :
  PyStr.lower key' = PyStr.lower key ->
  header_get key' (header_set key value hs) = Some value.
Proof.
  intros Hcase. induction hs as [|[k v] hs IH]; simpl.
  - now rewrite Hcase, String.eqb_refl.
  - destruct (String.eqb_spec (PyStr.lower k) (PyStr.lower key)) as [E|E];
      simpl; rewrite Hcase.
    + now rewrite String.eqb_refl.
    + destruct (String.eqb_spec (PyStr.lower k) (PyStr.lower key));
        [contradiction | exact IH].
Qed.

Lemma header_get_set_other (key key' value : string)
  (hs : list (string * string)) :
  PyStr.lower key' <> PyStr.lower key ->
  header_get key' (header_set key value hs) = header_get key' hs.
Proof.
  intros Hcase. induction hs as [|[k v] hs IH]; simpl.
  - destruct (String.eqb_spec (PyStr.lower key) (PyStr.lower key'));
      [congruence | reflexivity].
  - destruct (String.eqb_spec (PyStr.lower k) (PyStr.lower key)) as [E|E];
      simpl.
    + rewrite E.
      destruct (String.eqb_spec (PyStr.lower key) (PyStr.lower key'));
        [congruence | reflexivity].
    + now rewrite IH.
Qed.



(** What a successful [__init__] returns. *)
Lemma init_returns (url api_token : string) (log log' : list HttpCall)
  (self : LinkwardenClient) :
  __init__ url api_token log = (Return self, log') ->
  log' = log /\
  base_url self =
    (if PyStr.endswith "/" url then PyStr.drop_last url else url) /\
  headers (session self) =
    header_set "Content-type" "application/json"
      (header_set "Accept" "application/json"
         (header_set "Authorization" ("Bearer " ++ api_token)
            default_headers)).
Proof.
  unfold __init__. destruct (_ || _); [discriminate|].
  unfold ret. intros H. injection H as <- <-. repeat split.
Qed.

(** The three headers [__init__] sets, looked up under any case. *)
Lemma init_headers_lookup
  (url api_token : string) (log log' : list HttpCall)
  (self : LinkwardenClient) (key : string) :
  __init__ url api_token log = (Return self, log') ->
  (PyStr.lower key = "authorization" ->
   header_get key (headers (session self)) = Some ("Bearer " ++ api_token))
  /\
  (PyStr.lower key = "accept" \/ PyStr.lower key = "content-type" ->
   header_get key (headers (session self)) = Some "application/json").
Proof.
  intros Hinit.
  destruct (init_returns _ _ _ _ _ Hinit) as (_ & _ & ->). split.
  - intros Hkey.
    rewrite !header_get_set_other by (rewrite Hkey; discriminate).
    now apply header_get_set_same.
  - intros [Hkey|Hkey].
    + rewrite header_get_set_other by (rewrite Hkey; discriminate).
      now apply header_get_set_same.
    + now apply header_get_set_same.
Qed.

(** X1: a client that [__init__] returns has, in its session headers, the
    bearer token under [Authorization] and [application/json] under both
    [Accept] and [Content-Type], under any spelling of the case of these
    names and whatever the session started with. *)
Theorem init_sets_session_headers
  (url api_token : string) (log log' : list HttpCall)
  (self : LinkwardenClient) :
  __init__ url api_token log = (Return self, log') ->
  forall key,
    (PyStr.lower key = "authorization" ->
     header_get key (headers (session self)) = Some ("Bearer " ++ api_token))
    /\
    (PyStr.lower key = "accept" \/ PyStr.lower key = "content-type" ->
     header_get key (headers (session self)) = Some "application/json").
Proof.
  intros Hinit key. now apply (init_headers_lookup url api_token log log').
Qed.


(** X3: a base URL and the same URL followed by one slash construct the same
    client, when the URL has a scheme and does not itself end with a
    slash. *)
Theorem init_ignores_one_trailing_slash
  (url api_token : string) (log : list HttpCall) :
  (exists rest, url = "http://" ++ rest) \/
  (exists rest, url = "https://" ++ rest) ->
  (forall body, url <> body ++ "/") ->
  exists self,
    __init__ url api_token log = (Return self, log) /\
    __init__ (url ++ "/") api_token log = (Return self, log) /\
    base_url self = url.
Proof.
  intros Hscheme Hno.
  assert (Hscheme' : PyStr.startswith ["http://"; "https://"] (url ++ "/")
                     = true).
  { apply startswith_schemes.
    destruct Hscheme as [[rest ->]|[rest ->]]; [left|right];
      exists (rest ++ "/"); reflexivity. }
  assert (Hne : PyStr.is_empty url = false)
    by (destruct Hscheme as [[rest ->]|[rest ->]]; reflexivity).
  assert (Hne' : PyStr.is_empty (url ++ "/") = false)
    by (destruct url; reflexivity).
  apply startswith_schemes in Hscheme.
  assert (Hend : PyStr.endswith "/" url = false).
  { destruct (PyStr.endswith "/" url) eqn:E; [|reflexivity].
    apply endswith_slash_iff in E as [body ->]. now destruct (Hno body). }
  assert (Hend' : PyStr.endswith "/" (url ++ "/") = true)
    by (apply endswith_slash_iff; exists url; reflexivity).
  unfold __init__.
  rewrite Hne, Hne', Hscheme, Hscheme', Hend, Hend', drop_last_slash.
  cbn [negb orb]. eexists. repeat split.
Qed.


(** ** More on the request routine *)

Lemma on_http_error_log (e : PyExc) (log : list HttpCall) :
  snd (on_http_error e log) = log.
Proof.
  unfold on_http_error. destruct (exc_response e) as [r|]; [|reflexivity].
  cbv zeta. destruct (_ || _); [reflexivity|].
  destruct (_ =? _); [reflexivity|]. now destruct (_ && _).
Qed.

(** Whatever the network does, [_request] adds one call to the log. *)
Lemma _request_log (self : LinkwardenClient) (method endpoint : string)
  (kwargs : Kwargs) (log : list HttpCall) :
  snd (_request self method endpoint kwargs log) =
  (log ++ [issued self method endpoint kwargs])%list.
Proof.
  unfold _request.
  destruct (send log (issued self method endpoint kwargs)) as [r|e] eqn:Hsend.
  - rewrite (_request_with_responded _ _ _ _ _ _ _ Hsend).
    destruct (http_error_for r); [apply on_http_error_log | reflexivity].
  - rewrite (_request_with_failed _ _ _ _ _ _ _ Hsend). unfold find_handler.
    destruct (isinstance e HTTPError); [apply on_http_error_log|].
    now destruct (isinstance e RequestException).
Qed.

(** The method, path and keyword arguments behind each operation. *)
Lemma invoke_call (self : LinkwardenClient) (op : Operation) :
  exists method path kwargs,
    invoke self op = _request self method ("api/v1/" ++ path) kwargs /\
    (method = "GET" \/ method = "POST" \/ method = "PUT") /\
    kw_json kwargs = payload_of op /\
    (method = "GET" <-> payload_of op = None) /\
    kw_params kwargs =
      match op with
      | SearchQuery query => Some [("searchQueryString", query)]
      | _ => None
      end.
Proof.
  destruct op; cbn [invoke payload_of].
  - exists "GET", "collections", no_kwargs. now repeat split; auto.
  - exists "POST", "collections", (mkKwargs (Some payload) None).
    now repeat split; auto.
  - exists "GET", ("collections/" ++ PyStr.str_of_int collection_id),
      no_kwargs. now repeat split; auto.
  - exists "PUT", ("collections/" ++ PyStr.str_of_int collection_id),
      (mkKwargs (Some payload) None). now repeat split; auto.
  - exists "GET", "links", no_kwargs. now repeat split; auto.
  - exists "POST", "links", (mkKwargs (Some payload) None).
    now repeat split; auto.
  - exists "GET", ("links/" ++ PyStr.str_of_int link_id), no_kwargs.
    now repeat split; auto.
  - exists "PUT", ("links/" ++ PyStr.str_of_int link_id),
      (mkKwargs (Some payload) None). now repeat split; auto.
  - exists "GET", "tags", no_kwargs. now repeat split; auto.
  - exists "POST", "tags", (mkKwargs (Some payload) None).
    now repeat split; auto.
  - exists "GET", "users/me", no_kwargs. now repeat split; auto.
  - exists "GET", "search",
      (mkKwargs None (Some [("searchQueryString", query)])).
    now repeat split; auto.
Qed.

(** X4: every public operation, on every network and whatever comes back,
    sends exactly one call: the log grows by a single entry, which carries
    the session's headers, goes to a URL under [<base_url>/api/v1/] and uses
    GET, POST or PUT. *)
Theorem every_operation_sends_one_call
  (self : LinkwardenClient) (op : Operation) (log : list HttpCall) :
  exists call path,
    snd (invoke self op log) = (log ++ [call])%list /\
    call_headers call = headers (session self) /\
    call_url call = base_url self ++ "/api/v1/" ++ path /\
    (call_method call = "GET" \/ call_method call = "POST" \/
     call_method call = "PUT").
Proof.
  destruct (invoke_call self op)
    as (method & path & kwargs & -> & Hmethod & _).
  exists (issued self method ("api/v1/" ++ path) kwargs), path.
  rewrite _request_log. repeat split. exact Hmethod.
Qed.

(** X5: the caller's payload goes out untouched.  The call an operation
    sends has the operation's payload as its [json] argument; it is a GET
    exactly when there is no payload; and only [search_query] passes query
    parameters, the query string under [searchQueryString]. *)
Theorem payload_is_sent_unchanged
  (self : LinkwardenClient) (op : Operation) (log : list HttpCall) :
  exists call,
    snd (invoke self op log) = (log ++ [call])%list /\
    kw_json (call_kwargs call) = payload_of op /\
    (call_method call = "GET" <-> payload_of op = None) /\
    kw_params (call_kwargs call) =
      match op with
      | SearchQuery query => Some [("searchQueryString", query)]
      | _ => None
      end.
Proof.
  destruct (invoke_call self op)
    as (method & path & kwargs & -> & _ & Hjson & Hget & Hparams).
  exists (issued self method ("api/v1/" ++ path) kwargs).
  rewrite _request_log. repeat split; try assumption; apply Hget.
Qed.

(** X6: once a response has come back, [_request] returns a value exactly
    when the status lies outside 400 to 599 (1xx and 3xx included), and the
    value is then the decoded body, or the raw bytes when the body does not
    decode. *)
Theorem request_returns_iff_status_ok
  (self : LinkwardenClient) (method endpoint : string) (kwargs : Kwargs)
  (log : list HttpCall) (r : Response) :
  send log (issued self method endpoint kwargs) = Responded r ->
  ((exists v, fst (_request self method endpoint kwargs log) = Return v) <->
   ~ (400 <= status_code r < 600)) /\
  (~ (400 <= status_code r < 600) ->
   fst (_request self method endpoint kwargs log) =
   Return match response_json r with
          | Some data => PJson data
          | None => PBytes (content r)
          end).
Proof.
  intros Hsend. unfold _request.
  rewrite (_request_with_responded _ _ _ _ _ _ _ Hsend).
  pose proof (http_error_for_spec r) as Hspec.
  destruct (http_error_for r) as [e|].
  - destruct Hspec as (Hrange & _ & Hresp).
    destruct (on_http_error_raises e r
                (log ++ [issued self method endpoint kwargs])%list Hresp)
      as (c & label & -> & _).
    split; [split|]; cbn [fst].
    + intros [v Hv]. discriminate Hv.
    + intros Hout. now destruct Hout.
    + intros Hout. now destruct Hout.
  - split; [split|]; cbn [fst].
    + intros _. lia.
    + intros _. eexists. reflexivity.
    + reflexivity.
Qed.

(** X7: the class of the error tells the status.  When [_request] raises
    after a response, the error is a [LinkwardenAuthError] exactly for 401
    and 403, a [LinkwardenNotFoundError] exactly for 404, a
    [LinkwardenServerError] exactly for 500 to 599, and the bare
    [LinkwardenAPIError] exactly for the remaining statuses from 400 to
    499. *)
Theorem raised_class_tells_status
  (self : LinkwardenClient) (method endpoint : string) (kwargs : Kwargs)
  (log log' : list HttpCall) (r : Response) (x : PyExc) :
  send log (issued self method endpoint kwargs) = Responded r ->
  _request self method endpoint kwargs log = (Raise x, log') ->
  (isinstance x LinkwardenAuthError = true <->
   status_code r = 401 \/ status_code r = 403) /\
  (isinstance x LinkwardenNotFoundError = true <-> status_code r = 404) /\
  (isinstance x LinkwardenServerError = true <->
   500 <= status_code r < 600) /\
  (exc_class x = LinkwardenAPIError <->
   400 <= status_code r < 500 /\ status_code r <> 401 /\
   status_code r <> 403 /\ status_code r <> 404).
Proof.
  intros Hsend. unfold _request.
  rewrite (_request_with_responded _ _ _ _ _ _ _ Hsend).
  pose proof (http_error_for_spec r) as Hspec.
  destruct (http_error_for r) as [e|]; [|discriminate].
  destruct Hspec as (Hrange & _ & Hresp).
  unfold on_http_error. rewrite Hresp. cbv zeta.
  destruct (Z.eqb_spec (status_code r) 401) as [E401|N401];
    destruct (Z.eqb_spec (status_code r) 403) as [E403|N403];
    destruct (Z.eqb_spec (status_code r) 404) as [E404|N404];
    destruct (Z.leb_spec 500 (status_code r)) as [G500|L500];
    destruct (Z.ltb_spec (status_code r) 600) as [L600|G600];
    cbn [orb andb]; try lia;
    unfold raise; intros Hx; injection Hx as <- _;
    cbn [exc_class new_exc_from]; unfold isinstance; cbn [exc_class];
    repeat split; intros; try discriminate; try reflexivity; lia.
Qed.


Lemma not_request_exception_not_http (e : PyExc) :
  isinstance e RequestException = false -> isinstance e HTTPError = false.
Proof.
  unfold isinstance. destruct (exc_class e); intros H;
    (reflexivity || discriminate H).
Qed.

(** X8: an exception of [Session.request] that is not a
    [RequestException] is not wrapped: when the call an operation sends
    raises one, the operation lets it through as it is, after that one
    call. *)
Theorem foreign_exception_passes_through
  (self : LinkwardenClient) (op : Operation) (log : list HttpCall)
  (e : PyExc) :
  send log (sent_call self op) = Failed e ->
  isinstance e RequestException = false ->
  invoke self op log = (Raise e, (log ++ [sent_call self op])%list).
Proof.
  intros Hfail Hforeign.
  destruct (invoke_sent self op) as (method & endpoint & kwargs & -> & Hsent).
  rewrite Hsent in *. unfold _request.
  rewrite (_request_with_failed _ _ _ _ _ _ _ Hfail).
  unfold find_handler.
  now rewrite (not_request_exception_not_http e Hforeign), Hforeign.
Qed.

(** X9: no exception of [requests] ever leaves an operation.  On any
    network, whatever an operation raises is not an instance of
    [RequestException]: an [except requests.RequestException] clause around
    a call never fires. *)
Theorem no_request_exception_escapes
  (self : LinkwardenClient) (op : Operation) (log log' : list HttpCall)
  (x : PyExc) :
  invoke self op log = (Raise x, log') ->
  isinstance x RequestException = false.
Proof.
  destruct (invoke_is_request self op) as (method & endpoint & kwargs & ->).
  unfold _request.
  destruct (send log (issued self method endpoint kwargs)) as [r|e] eqn:Hsend.
  - rewrite (_request_with_responded _ _ _ _ _ _ _ Hsend).
    pose proof (http_error_for_spec r) as Hspec.
    destruct (http_error_for r) as [e|]; [|discriminate].
    destruct Hspec as (_ & _ & Hresp).
    destruct (on_http_error_raises e r
                (log ++ [issued self method endpoint kwargs])%list Hresp)
      as (c & label & -> & Hsub).
    intros Hx. injection Hx as <- _. unfold isinstance. cbn [exc_class new_exc_from].
    destruct c; (reflexivity || discriminate Hsub).
  - rewrite (_request_with_failed _ _ _ _ _ _ _ Hsend). unfold find_handler.
    destruct (isinstance e HTTPError) eqn:Hhttp.
    + unfold on_http_error. destruct (exc_response e) as [r|].
      * cbv zeta. destruct (_ || _); [|destruct (_ =? _);
                                        [|destruct (_ && _)]];
          unfold raise; intros Hx; injection Hx as <- _; reflexivity.
      * unfold raise. intros Hx. injection Hx as <- _. reflexivity.
    + destruct (isinstance e RequestException) eqn:Hreq.
      * unfold on_request_exception, raise. intros Hx.
        injection Hx as <- _. reflexivity.
      * intros Hx. injection Hx as <- _. exact Hreq.
Qed.

(** X10: every request of a constructed client is authenticated.  For a
    client that [__init__] returned for a token, the one call each operation
    sends carries [Bearer <token>] under [Authorization] and asks for
    [application/json]. *)
Theorem every_call_is_authenticated
  (url api_token : string) (log0 log0' : list HttpCall)
  (self : LinkwardenClient) (op : Operation) (log : list HttpCall) :
  __init__ url api_token log0 = (Return self, log0') ->
  exists call,
    snd (invoke self op log) = (log ++ [call])%list /\
    header_get "Authorization" (call_headers call) =
      Some ("Bearer " ++ api_token) /\
    header_get "Accept" (call_headers call) = Some "application/json".
Proof.
  intros Hinit.
  destruct (invoke_is_request self op) as (method & endpoint & kwargs & ->).
  exists (issued self method endpoint kwargs).
  rewrite _request_log. cbn [issued call_headers].
  split; [reflexivity|]. split.
  - now apply (proj1 (init_headers_lookup _ _ _ _ _ "Authorization" Hinit)).
  - apply (proj2 (init_headers_lookup _ _ _ _ _ "Accept" Hinit)). now left.
Qed.

Lemma append_cancel_l (a x y : string) : a ++ x = a ++ y -> x = y.
Proof.
  induction a as [|c a IH]; simpl; intros H; [exact H|].
  injection H as H. now apply IH.
Qed.

Lemma str_of_int_inj (a b : Z) :
  PyStr.str_of_int a = PyStr.str_of_int b -> a = b.
Proof.
  unfold PyStr.str_of_int. intros H.
  assert (Hnorm : forall z, Z.to_int z <> Decimal.Pos Decimal.Nil /\
                            Z.to_int z <> Decimal.Neg Decimal.Nil).
  { intros [|p|p]; split; simpl; try discriminate;
      intros E; injection E as E; now apply Unsigned.to_uint_nonnil in E. }
  apply DecimalZ.to_int_inj.
  assert (Some (Z.to_int a) = Some (Z.to_int b)) as E; [|now injection E].
  rewrite <- (NilZero.isi (Z.to_int a)) by apply Hnorm.
  rewrite <- (NilZero.isi (Z.to_int b)) by apply Hnorm.
  now rewrite H.
Qed.

(** X11: different ids address different resources.  The calls that
    [get_collection_by_id] sends for two different ids differ, the same for
    [get_link_by_id], and no collection, whatever its id, is asked for at
    the URL of a link, whatever its id. *)
Theorem ids_address_distinct_urls
  (self : LinkwardenClient) (i j : Z) (log : list HttpCall) :
  i <> j ->
  snd (get_collection_by_id self i log) <>
    snd (get_collection_by_id self j log) /\
  snd (get_link_by_id self i log) <> snd (get_link_by_id self j log) /\
  (forall k l : Z,
      snd (get_collection_by_id self k log) <> snd (get_link_by_id self l log)).
Proof.
  intros Hij. unfold get_collection_by_id, get_link_by_id.
  split; [|split].
  - rewrite !_request_log. intros H.
    apply app_inv_head in H. injection H as H. apply append_cancel_l in H.
    apply (append_cancel_l "/api/v1/collections/") in H.
    now apply str_of_int_inj in H.
  - rewrite !_request_log. intros H.
    apply app_inv_head in H. injection H as H. apply append_cancel_l in H.
    apply (append_cancel_l "/api/v1/links/") in H.
    now apply str_of_int_inj in H.
  - intros k l. rewrite !_request_log. intros H.
    apply app_inv_head in H. injection H as H. apply append_cancel_l in H.
    discriminate H.
Qed.

(** ** The enumerations *)

(** X12: an archive format is found again from its code, codes name at most
    one format, and the codes that name a format are 0 to 4; any other code
    is refused. *)
Theorem archive_format_value_round_trip :
  (forall f, ArchiveFormat.of_value (ArchiveFormat.value f) = Some f) /\
  (forall v f, ArchiveFormat.of_value v = Some f ->
               ArchiveFormat.value f = v) /\
  (forall v, ArchiveFormat.of_value v = None <-> v < 0 \/ 4 < v).
Proof.
  split; [intros []; reflexivity|].
  split.
  - intros v f. unfold ArchiveFormat.of_value, ArchiveFormat.members, find.
    cbn [ArchiveFormat.value].
    destruct (Z.eqb_spec 0 v), (Z.eqb_spec 1 v), (Z.eqb_spec 2 v),
      (Z.eqb_spec 3 v), (Z.eqb_spec 4 v);
      intros H; try discriminate H; injection H as <-; cbn; lia.
  - intros v. unfold ArchiveFormat.of_value, ArchiveFormat.members, find.
    cbn [ArchiveFormat.value].
    destruct (Z.eqb_spec 0 v), (Z.eqb_spec 1 v), (Z.eqb_spec 2 v),
      (Z.eqb_spec 3 v), (Z.eqb_spec 4 v);
      split; intros; try discriminate; try reflexivity; lia.
Qed.

(** X13: the upload formats are a part of the archive formats.  Each upload
    format has an archive format of the same name and the same code, its
    code is found again by [ArchiveUploadFormat], and the archive formats
    without an upload format are those with a code above 2. *)
Theorem upload_formats_are_archive_formats :
  (forall u, exists f,
      ArchiveFormat.of_value (ArchiveUploadFormat.value u) = Some f /\
      ArchiveFormat.name f = ArchiveUploadFormat.name u) /\
  (forall u,
      ArchiveUploadFormat.of_value (ArchiveUploadFormat.value u) = Some u) /\
  (forall f,
      ArchiveUploadFormat.of_value (ArchiveFormat.value f) = None <->
      2 < ArchiveFormat.value f).
Proof.
  split; [|split].
  - intros []; eexists; split; reflexivity.
  - intros []; reflexivity.
  - intros []; cbn; split; intros; try discriminate; try reflexivity; lia.
Qed.


(** ** The tools of the agent *)

(** The loop of [unpack_tool] is a filter that keeps the order. *)
Lemma unpack_tool_is_filter (attrs : list (string * bool)) :
  unpack_tool attrs = map fst (filter is_tool attrs).
Proof.
  unfold unpack_tool.
  assert (Hgen : forall acc,
    fold_left
      (fun tools attr =>
         let method_name := fst attr in
         if snd attr && negb (String.prefix "__" method_name) then
           if String.eqb method_name "_request" then tools
           else (tools ++ [method_name])%list
         else tools)
      attrs acc = (acc ++ map fst (filter is_tool attrs))%list).
  { induction attrs as [|[name callable] attrs IH]; intros acc.
    - cbn. now rewrite app_nil_r.
    - cbn [fold_left filter]. rewrite IH. unfold is_tool at 2.
      cbn [fst snd].
      destruct (callable && negb (String.prefix "__" name)); [|reflexivity].
      destruct (String.eqb name "_request"); [reflexivity|].
      cbn [andb negb map fst]. now rewrite <- app_assoc. }
  apply Hgen.
Qed.

(** X14: [unpack_tool] hands out an attribute exactly when it is callable,
    its name does not start with two underscores, and it is not
    [_request].  So [_request] and the dunder methods are never tools, while
    any other callable is, a name with a single leading underscore
    included. *)
Theorem unpack_tool_membership (attrs : list (string * bool))
  (name : string) :
  In name (unpack_tool attrs) <->
  In (name, true) attrs /\ String.prefix "__" name = false /\
  name <> "_request".
Proof.
  rewrite unpack_tool_is_filter, in_map_iff. split.
  - intros ([n callable] & <- & Hin). apply filter_In in Hin as [Hin Htool].
    unfold is_tool in Htool. cbn [fst snd] in *.
    apply andb_true_iff in Htool as [Htool Hreq].
    apply andb_true_iff in Htool as [-> Hdunder].
    apply negb_true_iff in Hdunder, Hreq.
    repeat split; [exact Hin | exact Hdunder |].
    now apply String.eqb_neq.
  - intros (Hin & Hdunder & Hreq). exists (name, true). split; [reflexivity|].
    apply filter_In. split; [exact Hin|].
    unfold is_tool. cbn [fst snd]. rewrite Hdunder.
    apply String.eqb_neq in Hreq. now rewrite Hreq.
Qed.

Lemma is_tool_without_dunders (attrs : list (string * bool)) :
  filter is_tool (without_dunders attrs) = filter is_tool attrs.
Proof.
  unfold without_dunders.
  induction attrs as [|[name callable] attrs IH]; [reflexivity|].
  cbn [filter fst]. destruct (String.prefix "__" name) eqn:Hd; cbn [negb].
  - rewrite IH. unfold is_tool at 2. cbn [fst snd]. rewrite Hd.
    now rewrite andb_false_r.
  - cbn [filter]. now rewrite IH.
Qed.

(** X15: on a [LinkwardenClient], whatever dunder names [dir] lists, the
    tools are the twelve public operations in the order of [dir]:
    [_request], [base_url] and [session] are left out, every operation that
    [invoke] runs is a tool, and every tool is one of them. *)
Theorem client_tools_are_the_operations (attrs : list (string * bool)) :
  without_dunders attrs = client_attrs ->
  unpack_tool attrs =
    ["create_collection"; "create_link"; "create_tag";
     "get_collection_by_id"; "get_collections"; "get_current_user";
     "get_link_by_id"; "get_links"; "get_tags"; "search_query";
     "update_collection"; "update_link"] /\
  (forall op, In (op_name op) (unpack_tool attrs)) /\
  (forall tool, In tool (unpack_tool attrs) -> exists op, op_name op = tool).
Proof.
  intros Hdir.
  assert (Htools : unpack_tool attrs =
    ["create_collection"; "create_link"; "create_tag";
     "get_collection_by_id"; "get_collections"; "get_current_user";
     "get_link_by_id"; "get_links"; "get_tags"; "search_query";
     "update_collection"; "update_link"]).
  { rewrite unpack_tool_is_filter, <- is_tool_without_dunders, Hdir.
    reflexivity. }
  rewrite Htools. split; [reflexivity|]. split.
  - intros []; cbn [op_name In]; tauto.
  - intros tool Hin. cbn [In] in Hin.
    repeat (destruct Hin as [<-|Hin];
            [first [ now exists GetCollections
                   | now exists (CreateCollection JNull)
                   | now exists (GetCollectionById 0)
                   | now exists (UpdateCollection 0 JNull)
                   | now exists GetLinks
                   | now exists (CreateLink JNull)
                   | now exists (GetLinkById 0)
                   | now exists (UpdateLink 0 JNull)
                   | now exists GetTags
                   | now exists (CreateTag JNull)
                   | now exists GetCurrentUser
                   | now exists (SearchQuery EmptyString) ]|]).
    destruct Hin.
Qed.



Lemma append_assoc (a b c : string) : (a ++ b) ++ c = a ++ b ++ c.
Proof.
  induction a as [|ch a IH]; simpl; [reflexivity | now rewrite IH].
Qed.

(** X16: constructor and request join the base URL and the path with one
    slash.  For a client that [__init__] returned for [url], the call of
    every operation goes to [url] followed by [api/v1/...] when [url] ends
    with a slash, and to [url], a slash and [api/v1/...] when it does not;
    of several trailing slashes only the last is dropped, the others stay in
    the request URL. *)
Theorem request_url_joins_base_and_path
  (url api_token : string) (log0 log0' : list HttpCall)
  (self : LinkwardenClient) (op : Operation) (log : list HttpCall) :
  __init__ url api_token log0 = (Return self, log0') ->
  exists call path,
    snd (invoke self op log) = (log ++ [call])%list /\
    (forall body, url = body ++ "/" ->
                  call_url call = url ++ "api/v1/" ++ path) /\
    ((forall body, url <> body ++ "/") ->
     call_url call = url ++ "/api/v1/" ++ path).
Proof.
  intros Hinit.
  destruct (init_returns _ _ _ _ _ Hinit) as (_ & Hbase & _).
  destruct (invoke_call self op) as (method & path & kwargs & -> & _).
  exists (issued self method ("api/v1/" ++ path) kwargs), path.
  rewrite _request_log. split; [reflexivity|].
  cbn [issued call_url]. rewrite Hbase. split.
  - intros body ->.
    rewrite (proj2 (endswith_slash_iff (body ++ "/")))
      by (exists body; reflexivity).
    rewrite drop_last_slash. now rewrite append_assoc.
  - intros Hno. destruct (PyStr.endswith "/" url) eqn:Hend; [|reflexivity].
    apply endswith_slash_iff in Hend as [body ->]. now destruct (Hno body).
Qed.


End Client.

(** ** The routine on concrete servers *)

(** C2: [create_collection] with the payload [{"name": "Reading List"}]
    against a server answering [201] with the body
    [{"response": {"id": 1, "name": "Reading List", ...}}] returns the whole
    decoded body.  The value returned has no [id] and no [name]; the
    collection sits under its [response] key. *)
Theorem create_collection_returns_wrapper :
  let server :=
    Scenario.answers 201 "Created"
      (MiniJson.dumps Scenario.wrapped_reading_list) in
  exists returned,
    fst (create_collection server Scenario.decode Scenario.client
           Scenario.create_payload []) = Return (PJson returned) /\
    returned = Scenario.wrapped_reading_list /\
    dict_get "id" returned = None /\
    dict_get "name" returned = None /\
    dict_get "response" returned = Some Scenario.reading_list /\
    dict_get "id" Scenario.reading_list = Some (JInt 1) /\
    dict_get "name" Scenario.reading_list = Some (JStr "Reading List").
Proof.
  exists Scenario.wrapped_reading_list. vm_compute. repeat split.
Qed.

Lemma scenario_client_is_constructed :
  __init__ Scenario.default_headers "https://links.example.org/" "s3cr3t" [] =
  (Return Scenario.client, []).
Proof. reflexivity. Qed.

(** Against C1 as stated.  A status of 600 with a JSON body: [_request]
    returns the decoded body
    although the status is at least 400 and none of 401, 403, 404, 5xx. *)
Lemma status_600_is_returned_not_raised :
  let server :=
    Scenario.answers 600 "Odd" (MiniJson.dumps Scenario.reading_list) in
  let call := issued Scenario.client "GET" "api/v1/collections/1" no_kwargs in
  exists r,
    server [] call = Responded r /\
    400 <= status_code r /\
    status_code r <> 401 /\ status_code r <> 403 /\ status_code r <> 404 /\
    ~ (500 <= status_code r < 600) /\
    get_collection_by_id server Scenario.decode Scenario.client 1 [] =
      (Return (PJson Scenario.reading_list), [call]) /\
    ~ (exists x log,
          get_collection_by_id server Scenario.decode Scenario.client 1 [] =
          (Raise x, log)).
Proof.
  cbv zeta. eexists. split; [reflexivity|]. cbn [status_code].
  repeat split; try lia; try discriminate.
  intros (x & log & H). vm_compute in H. discriminate H.
Qed.

(** Against C3 as stated.  A status of 401 with a body that is not JSON: the
    error raised is the
    authentication error, a specialization; and a status of 600 with such a
    body raises nothing at all. *)
Lemma non_json_failure_is_not_always_generic :
  let denied := Scenario.answers 401 "Unauthorized" Scenario.not_json in
  let odd := Scenario.answers 600 "Odd" Scenario.not_json in
  let call := issued Scenario.client "GET" "api/v1/links/999" no_kwargs in
  (exists r x,
      denied [] call = Responded r /\
      400 <= status_code r /\ Scenario.decode r = None /\
      get_link_by_id denied Scenario.decode Scenario.client 999 [] =
        (Raise x, [call]) /\
      exc_class x = LinkwardenAuthError /\
      exc_class x <> LinkwardenAPIError) /\
  (exists r,
      odd [] call = Responded r /\
      400 <= status_code r /\ Scenario.decode r = None /\
      get_link_by_id odd Scenario.decode Scenario.client 999 [] =
        (Return (PBytes (content r)), [call])).
Proof.
  cbv zeta. split.
  - eexists _, _. split; [reflexivity|]. cbn [status_code].
    split; [lia|]. split; [reflexivity|]. split; [reflexivity|].
    split; [reflexivity | discriminate].
  - eexists. split; [reflexivity|]. cbn [status_code].
    split; [lia|]. split; reflexivity.
Qed.

(** Against C9 as stated.  A status of 600 with a body that is not JSON gets
    past
    [raise_for_status], fails to decode, and is answered by the decode
    handler with the raw bytes: a response in the handler whose status is
    not below 400. *)
Lemma status_600_reaches_decode_handler :
  let odd := Scenario.answers 600 "Odd" Scenario.not_json in
  let call := issued Scenario.client "GET" "api/v1/links/999" no_kwargs in
  exists r,
    odd [] call = Responded r /\
    raise_for_status r [call] = (Return tt, [call]) /\
    (exists e, json_of Scenario.decode r [call] = (Raise e, [call]) /\
               isinstance e JSONDecodeError = true) /\
    _request odd Scenario.decode Scenario.client "GET" "api/v1/links/999"
      no_kwargs [] = (Return (PBytes (content r)), [call]) /\
    ~ (status_code r < 400).
Proof.
  cbv zeta. eexists. split; [reflexivity|]. split; [reflexivity|].
  split; [eexists; split; reflexivity|]. split; [reflexivity|].
  cbn [status_code]. lia.
Qed.

(** ** The theorems at concrete inputs *)

(** C6 on a host name without a scheme and on the empty string. *)
Lemma init_rejects_missing_scheme_witness :
  (exists x,
      __init__ Scenario.default_headers "links.example.org" "s3cr3t" [] =
        (Raise x, []) /\ exc_class x = ValueError) /\
  (exists x,
      __init__ Scenario.default_headers EmptyString "s3cr3t" [] =
        (Raise x, []) /\ exc_class x = ValueError).
Proof.
  split; apply init_rejects_missing_scheme;
    intros [rest H]; discriminate H.
Defined.

(** C7 on [https://links.example.org/]. *)
Lemma init_strips_one_trailing_slash_witness :
  exists self,
    __init__ Scenario.default_headers "https://links.example.org/" "s3cr3t" []
      = (Return self, []) /\
    base_url self = "https://links.example.org".
Proof.
  destruct (init_strips_one_trailing_slash Scenario.default_headers
              "https://links.example.org/" "s3cr3t" [])
    as (self & Hinit & Hslash & _).
  - right. exists "links.example.org/". reflexivity.
  - exists self. split; [exact Hinit|]. apply Hslash. reflexivity.
Defined.

(** C1, amended, on the statuses 403, 404, 503 and 422. *)
Lemma request_classifies_failure_status_witness :
  let call := issued Scenario.client "GET" "api/v1/links/999" no_kwargs in
  let run (status : Z) (why : string) :=
    _request (Scenario.answers status why Scenario.not_json) Scenario.decode
      Scenario.client "GET" "api/v1/links/999" no_kwargs [] in
  (exists e, run 403 "Forbidden" =
     (Raise (mkExc LinkwardenAuthError
               "Authentication error (403): <html>gateway says no</html>"
               None (Some e)), [call])) /\
  (exists e, run 404 "Not Found" =
     (Raise (mkExc LinkwardenNotFoundError
               "Resource not found (404): <html>gateway says no</html>"
               None (Some e)), [call])) /\
  (exists e, run 503 "Service Unavailable" =
     (Raise (mkExc LinkwardenServerError
               "Server error (503): <html>gateway says no</html>"
               None (Some e)), [call])) /\
  (exists e, run 422 "Unprocessable Entity" =
     (Raise (mkExc LinkwardenAPIError
               "HTTP client error (422): <html>gateway says no</html>"
               None (Some e)), [call])).
Proof.
  cbv zeta. repeat split.
  - destruct (request_classifies_failure_status
                (Scenario.answers 403 "Forbidden" Scenario.not_json)
                Scenario.decode Scenario.client "GET" "api/v1/links/999"
                no_kwargs [] _ eq_refl)
      as (e & _ & _ & Hauth & _); [cbn [status_code]; lia|].
    exists e. apply Hauth. right. reflexivity.
  - destruct (request_classifies_failure_status
                (Scenario.answers 404 "Not Found" Scenario.not_json)
                Scenario.decode Scenario.client "GET" "api/v1/links/999"
                no_kwargs [] _ eq_refl)
      as (e & _ & _ & _ & Hmissing & _); [cbn [status_code]; lia|].
    exists e. apply Hmissing. reflexivity.
  - destruct (request_classifies_failure_status
                (Scenario.answers 503 "Service Unavailable" Scenario.not_json)
                Scenario.decode Scenario.client "GET" "api/v1/links/999"
                no_kwargs [] _ eq_refl)
      as (e & _ & _ & _ & _ & Hserver & _); [cbn [status_code]; lia|].
    exists e. apply Hserver. cbn [status_code]. lia.
  - destruct (request_classifies_failure_status
                (Scenario.answers 422 "Unprocessable Entity" Scenario.not_json)
                Scenario.decode Scenario.client "GET" "api/v1/links/999"
                no_kwargs [] _ eq_refl)
      as (e & _ & _ & _ & _ & _ & Hother); [cbn [status_code]; lia|].
    exists e. apply Hother; cbn [status_code]; lia.
Defined.

(** C3, amended, on a 418 with an HTML body. *)
Lemma failure_status_with_non_json_body_witness :
  let teapot := Scenario.answers 418 "I'm a teapot" Scenario.not_json in
  let call := issued Scenario.client "GET" "api/v1/tags" no_kwargs in
  exists x,
    get_tags teapot Scenario.decode Scenario.client [] = (Raise x, [call]) /\
    isinstance x LinkwardenAPIError = true /\
    isinstance x JSONDecodeError = false /\
    exc_class x = LinkwardenAPIError /\
    exc_str x = "HTTP client error (418): <html>gateway says no</html>".
Proof.
  cbv zeta.
  destruct (failure_status_with_non_json_body
              (Scenario.answers 418 "I'm a teapot" Scenario.not_json)
              Scenario.decode Scenario.client "GET" "api/v1/tags" no_kwargs
              [] _ eq_refl)
    as (x & Hrun & Hbase & Hnot & Hgeneric).
  - cbn [status_code]. lia.
  - reflexivity.
  - exists x. split; [exact Hrun|]. split; [exact Hbase|].
    split; [exact Hnot|]. apply Hgeneric; cbn [status_code]; lia.
Defined.

(** C4 on a list of tags, encoded by the server and decoded by the client. *)
Lemma success_json_is_returned_witness :
  let tags :=
    JDict [("response",
            JList [JDict [("id", JInt 3); ("name", JStr "work")];
                   JDict [("id", JInt 4); ("name", JStr "to read")]])] in
  get_tags (Scenario.answers 200 "OK" (MiniJson.dumps tags)) Scenario.decode
    Scenario.client [] =
  (Return (PJson tags), [issued Scenario.client "GET" "api/v1/tags" no_kwargs]).
Proof.
  cbv zeta. unfold get_tags.
  eapply (success_json_is_returned _ Scenario.decode Scenario.client
            "GET" "api/v1/tags" no_kwargs []).
  - reflexivity.
  - cbn [status_code]. lia.
  - vm_compute. reflexivity.
Defined.

(** C5 on a 200 with an HTML body. *)
Lemma success_non_json_returns_content_witness :
  get_current_user (Scenario.answers 200 "OK" Scenario.not_json)
    Scenario.decode Scenario.client [] =
  (Return (PBytes (MiniJson.encode Scenario.not_json)),
   [issued Scenario.client "GET" "api/v1/users/me" no_kwargs]).
Proof.
  unfold get_current_user.
  apply (success_non_json_returns_content
           (Scenario.answers 200 "OK" Scenario.not_json) Scenario.decode
           Scenario.client "GET" "api/v1/users/me" no_kwargs []
           (mkResponse 200 "OK" "https://links.example.org/api/v1/users/me"
              (MiniJson.encode Scenario.not_json) Scenario.not_json)).
  - reflexivity.
  - cbn [status_code]. lia.
  - vm_compute. reflexivity.
Defined.

(** C8 on a search, over a network that refuses the search endpoint only
    and names the URL in its error. *)
Lemma transport_failure_is_wrapped_witness :
  let network := fun (_ : list HttpCall) (call : HttpCall) =>
    if String.eqb (call_url call) "https://links.example.org/api/v1/search"
    then Failed (mkExc ConnectionError
                   ("Connection refused: " ++ call_url call) None None)
    else Responded (mkResponse 200 "OK" (call_url call) [] EmptyString) in
  let refusal :=
    mkExc ConnectionError
      "Connection refused: https://links.example.org/api/v1/search"
      None None in
  invoke network Scenario.decode Scenario.client (SearchQuery "tag:work") [] =
  (Raise (mkExc LinkwardenAPIError
            "A network request failed: Connection refused: https://links.example.org/api/v1/search"
            None (Some refusal)),
   [sent_call Scenario.client (SearchQuery "tag:work")]).
Proof.
  cbv zeta.
  apply (transport_failure_is_wrapped
           (fun (_ : list HttpCall) (call : HttpCall) =>
              if String.eqb (call_url call)
                   "https://links.example.org/api/v1/search"
              then Failed (mkExc ConnectionError
                             ("Connection refused: " ++ call_url call)
                             None None)
              else Responded (mkResponse 200 "OK" (call_url call) []
                                EmptyString))
           Scenario.decode Scenario.client (SearchQuery "tag:work") []
           (mkExc ConnectionError
              "Connection refused: https://links.example.org/api/v1/search"
              None None)).
  - reflexivity.
  - reflexivity.
Defined.

(** C9, amended, on a 204 with an empty body. *)
Lemma non_ok_arm_is_dead_witness :
  let r := mkResponse 204 "No Content" "https://links.example.org/api/v1/tags"
             [] EmptyString in
  ok r = true /\ (status_code r < 400 \/ 600 <= status_code r).
Proof.
  cbv zeta.
  apply (proj2 (non_ok_arm_is_dead Scenario.unreachable Scenario.decode)
           _ []).
  reflexivity.
Defined.

(** C10 on a link that is not there (a 404) and on listing the links over a
    network that refuses every connection. *)
Lemma raised_errors_are_api_errors_witness :
  (exists x,
      invoke (Scenario.answers 404 "Not Found" Scenario.not_json)
        Scenario.decode Scenario.client (GetLinkById 999) [] =
        (Raise x, [sent_call Scenario.client (GetLinkById 999)]) /\
      In (exc_class x)
        [LinkwardenAuthError; LinkwardenNotFoundError; LinkwardenServerError;
         LinkwardenAPIError] /\
      isinstance x LinkwardenAPIError = true /\
      forall h : PyExc -> M PyValue,
        try_except
          (invoke (Scenario.answers 404 "Not Found" Scenario.not_json)
             Scenario.decode Scenario.client (GetLinkById 999))
          [(LinkwardenAPIError, h)] [] =
        h x [sent_call Scenario.client (GetLinkById 999)]) /\
  (exists x,
      invoke Scenario.unreachable Scenario.decode Scenario.client GetLinks []
        = (Raise x, [sent_call Scenario.client GetLinks]) /\
      In (exc_class x)
        [LinkwardenAuthError; LinkwardenNotFoundError; LinkwardenServerError;
         LinkwardenAPIError] /\
      isinstance x LinkwardenAPIError = true /\
      forall h : PyExc -> M PyValue,
        try_except
          (invoke Scenario.unreachable Scenario.decode Scenario.client
             GetLinks)
          [(LinkwardenAPIError, h)] [] =
        h x [sent_call Scenario.client GetLinks]).
Proof.
  split.
  - refine (proj1 (raised_errors_are_api_errors Scenario.default_headers
                     (Scenario.answers 404 "Not Found" Scenario.not_json)
                     Scenario.decode Scenario.client (GetLinkById 999) []
                     _)).
    left. eexists. split; [reflexivity|]. cbn [status_code]. lia.
  - refine (proj1 (raised_errors_are_api_errors Scenario.default_headers
                     Scenario.unreachable Scenario.decode Scenario.client
                     GetLinks [] _)).
    right. exists Scenario.refused. split; reflexivity.
Defined.

(** ** Further properties at concrete inputs *)

(** X17: the body of an error is never decoded.  Unless a response with a
    status outside 400 to 599 comes back, what [_request] does is the same
    under any two JSON decoders. *)
Theorem failure_does_not_depend_on_decoder
  (send : list HttpCall -> HttpCall -> Outcome)
  (decode1 decode2 : Response -> option json)
  (self : LinkwardenClient) (method endpoint : string) (kwargs : Kwargs)
  (log : list HttpCall) :
  (forall r, send log (issued self method endpoint kwargs) = Responded r ->
             400 <= status_code r < 600) ->
  _request send decode1 self method endpoint kwargs log =
  _request send decode2 self method endpoint kwargs log.
Proof.
  intros Hfail. unfold _request.
  destruct (send log (issued self method endpoint kwargs)) as [r|e] eqn:Hsend.
  - rewrite !(_request_with_responded _ _ _ _ _ _ _ _ _ Hsend).
    destruct (http_error_in_range r (Hfail r eq_refl)) as (e & -> & _).
    reflexivity.
  - now rewrite !(_request_with_failed _ _ _ _ _ _ _ _ _ Hsend).
Qed.

(** X1 on the scenario client, for a key in capitals. *)
Lemma init_sets_session_headers_witness :
  header_get "AUTHORIZATION" (headers (session Scenario.client)) =
    Some "Bearer s3cr3t" /\
  header_get "content-type" (headers (session Scenario.client)) =
    Some "application/json".
Proof.
  pose proof (init_sets_session_headers Scenario.default_headers
                "https://links.example.org/" "s3cr3t" [] []
                Scenario.client eq_refl) as H.
  split.
  - apply (proj1 (H "AUTHORIZATION")). reflexivity.
  - apply (proj2 (H "content-type")). right. reflexivity.
Defined.


(** X3 on [https://links.example.org]. *)
Lemma init_ignores_one_trailing_slash_witness :
  exists self,
    __init__ Scenario.default_headers "https://links.example.org" "s3cr3t" []
      = (Return self, []) /\
    __init__ Scenario.default_headers "https://links.example.org/" "s3cr3t" []
      = (Return self, []) /\
    base_url self = "https://links.example.org".
Proof.
  apply (init_ignores_one_trailing_slash Scenario.default_headers
           "https://links.example.org" "s3cr3t" []).
  - right. exists "links.example.org". reflexivity.
  - intros body H.
    apply (f_equal (PyStr.endswith "/")) in H.
    rewrite (proj2 (endswith_slash_iff (body ++ "/"))) in H
      by (exists body; reflexivity).
    discriminate H.
Defined.

(** X6 on a redirect that is not followed: a 304 with an empty body. *)
Lemma request_returns_iff_status_ok_witness :
  fst (get_links (Scenario.answers 304 "Not Modified" EmptyString)
         Scenario.decode Scenario.client []) = Return (PBytes []).
Proof.
  apply (proj2 (request_returns_iff_status_ok
                  (Scenario.answers 304 "Not Modified" EmptyString)
                  Scenario.decode Scenario.client "GET" "api/v1/links"
                  no_kwargs [] _ eq_refl)).
  cbn [status_code]. lia.
Defined.


(** X7 on a 404 with an HTML body. *)
Lemma raised_class_tells_status_witness :
  let x :=
    mkExc LinkwardenNotFoundError
      "Resource not found (404): <html>gateway says no</html>" None
      (Some (mkExc HTTPError
               "404 Client Error: Not Found for url: https://links.example.org/api/v1/links/999"
               (Some (mkResponse 404 "Not Found"
                        "https://links.example.org/api/v1/links/999"
                        (MiniJson.encode Scenario.not_json)
                        Scenario.not_json))
               None)) in
  isinstance x LinkwardenNotFoundError = true /\
  isinstance x LinkwardenAuthError <> true /\
  isinstance x LinkwardenServerError <> true.
Proof.
  cbv zeta.
  destruct (raised_class_tells_status
              (Scenario.answers 404 "Not Found" Scenario.not_json)
              Scenario.decode Scenario.client "GET" "api/v1/links/999"
              no_kwargs [] _ _ _ eq_refl eq_refl)
    as (Hauth & Hmissing & Hserver & _).
  split; [|split].
  - apply Hmissing. reflexivity.
  - intros H. apply Hauth in H. cbn [status_code] in H. lia.
  - intros H. apply Hserver in H. cbn [status_code] in H. lia.
Defined.

(** X8 on a [ValueError] out of [Session.request], over a network that
    answers every call but the one for the tags. *)
Lemma foreign_exception_passes_through_witness :
  let bug := mkExc ValueError "unsupported argument" None None in
  let network := fun (_ : list HttpCall) (call : HttpCall) =>
    if String.eqb (call_url call) "https://links.example.org/api/v1/tags"
    then Failed bug
    else Responded (mkResponse 200 "OK" (call_url call) [] EmptyString) in
  invoke network Scenario.decode Scenario.client GetTags [] =
  (Raise bug, [sent_call Scenario.client GetTags]).
Proof.
  cbv zeta.
  apply (foreign_exception_passes_through
           (fun (_ : list HttpCall) (call : HttpCall) =>
              if String.eqb (call_url call)
                   "https://links.example.org/api/v1/tags"
              then Failed (mkExc ValueError "unsupported argument" None None)
              else Responded (mkResponse 200 "OK" (call_url call) []
                                EmptyString))
           Scenario.decode Scenario.client GetTags []).
  - reflexivity.
  - reflexivity.
Defined.

(** X9 on a read timeout. *)
Lemma no_request_exception_escapes_witness :
  let timeout := mkExc ReadTimeout "Read timed out." None None in
  isinstance
    (mkExc LinkwardenAPIError "A network request failed: Read timed out."
       None (Some timeout))
    RequestException = false.
Proof.
  cbv zeta.
  apply (no_request_exception_escapes
           (fun _ _ => Failed (mkExc ReadTimeout "Read timed out." None None))
           Scenario.decode Scenario.client GetCurrentUser []
           [issued Scenario.client "GET" "api/v1/users/me" no_kwargs]).
  reflexivity.
Defined.

(** X10 on the scenario client and a search. *)
Lemma every_call_is_authenticated_witness :
  exists call,
    snd (invoke Scenario.unreachable Scenario.decode Scenario.client
           (SearchQuery "tag:work") []) = [call] /\
    header_get "Authorization" (call_headers call) = Some "Bearer s3cr3t" /\
    header_get "Accept" (call_headers call) = Some "application/json".
Proof.
  apply (every_call_is_authenticated Scenario.default_headers
           Scenario.unreachable Scenario.decode
           "https://links.example.org/" "s3cr3t" [] [] Scenario.client
           (SearchQuery "tag:work") []).
  reflexivity.
Defined.

(** X11 on the ids 7 and 70. *)
Lemma ids_address_distinct_urls_witness :
  snd (get_collection_by_id Scenario.unreachable Scenario.decode
         Scenario.client 7 []) <>
  snd (get_collection_by_id Scenario.unreachable Scenario.decode
         Scenario.client 70 []) /\
  snd (get_collection_by_id Scenario.unreachable Scenario.decode
         Scenario.client 7 []) <>
  snd (get_link_by_id Scenario.unreachable Scenario.decode
         Scenario.client 6 []).
Proof.
  assert (Hne : 7 <> 70) by discriminate.
  pose proof (ids_address_distinct_urls Scenario.unreachable Scenario.decode
                Scenario.client 7 70 [] Hne) as (Hcoll & _ & Hcross).
  split; [exact Hcoll | exact (Hcross 7 6)].
Defined.

(** X15 on a [dir] listing with some dunder names in front. *)
Lemma client_tools_are_the_operations_witness :
  let attrs :=
    (("__class__", true) :: ("__dict__", false) :: ("__init__", true)
     :: ("__repr__", true) :: client_attrs) in
  unpack_tool attrs =
    ["create_collection"; "create_link"; "create_tag";
     "get_collection_by_id"; "get_collections"; "get_current_user";
     "get_link_by_id"; "get_links"; "get_tags"; "search_query";
     "update_collection"; "update_link"].
Proof.
  cbv zeta.
  exact (proj1 (client_tools_are_the_operations
                  (("__class__", true) :: ("__dict__", false)
                   :: ("__init__", true) :: ("__repr__", true)
                   :: client_attrs) eq_refl)).
Defined.

(** X16 on a base URL given with its trailing slash. *)
Lemma request_url_joins_base_and_path_witness :
  exists call path,
    snd (invoke Scenario.unreachable Scenario.decode Scenario.client
           GetCollections []) = [call] /\
    call_url call = "https://links.example.org/" ++ "api/v1/" ++ path.
Proof.
  destruct (request_url_joins_base_and_path Scenario.default_headers
              Scenario.unreachable Scenario.decode
              "https://links.example.org/" "s3cr3t" [] [] Scenario.client
              GetCollections [] eq_refl)
    as (call & path & Hlog & Hslash & _).
  exists call, path. split; [exact Hlog|].
  apply (Hslash "https://links.example.org"). reflexivity.
Defined.

(** X17 on a 500 whose body is JSON, under the reference decoder and under
    a decoder that accepts nothing. *)
Lemma failure_does_not_depend_on_decoder_witness :
  let broken := Scenario.answers 500 "Internal Server Error"
                  (MiniJson.dumps Scenario.wrapped_reading_list) in
  get_tags broken Scenario.decode Scenario.client [] =
  get_tags broken (fun _ => None) Scenario.client [].
Proof.
  cbv zeta. unfold get_tags.
  apply failure_does_not_depend_on_decoder.
  intros r H. injection H as <-. cbn [status_code]. lia.
Defined.
